(** * Bank review analysis: thematic analysis and insight generation

    A shallow embedding of [src/analysis/thematic_analysis.py] and
    [src/analysis/generate_insights.py], with the properties their
    specification states.

    Conventions of the embedding.
    - Python [str] values are [string]s of code points below 128; only
      there do [lower], the class [[a-zA-Z]] and [\s] have the meaning
      given below.
    - A pandas frame is a record of column names, index labels and rows.
      Every frame has the columns [review] and [bank], which the code
      reads without a test; [columns] is consulted where the code tests
      for a column.
    - Python floats are exact rationals ([Q]); what is stated of them
      are bounds and orders that binary rounding keeps, never exact sums.
    - A Python exception is [None] in the [option] monad; [try]/[except]
      is a [match] on it.
    - [print] calls are dropped. *)

From Stdlib Require Import String Ascii List Bool Arith ZArith QArith Lia Lqa.
From Stdlib Require Import Permutation Sorted.
Import ListNotations.

Local Close Scope Q_scope.
Local Open Scope string_scope.
Local Open Scope list_scope.

(** ** A small error monad for code inside [try] *)

Definition bind {A B : Type} (m : option A) (f : A -> option B) : option B :=
  match m with
  | Some a => f a
  | None => None
  end.

Notation "x <- m ;; k" := (bind m (fun x => k))
  (at level 61, m at next level, right associativity).

Fixpoint mapM {A B : Type} (f : A -> option B) (l : list A) : option (list B) :=
  match l with
  | [] => Some []
  | a :: r => b <- f a ;; bs <- mapM f r ;; Some (b :: bs)
  end.

(** ** Python string primitives *)

Module Text.

Definition is_upper (c : ascii) : bool :=
  let n := nat_of_ascii c in (65 <=? n)%nat && (n <=? 90)%nat.

Definition is_alpha (c : ascii) : bool :=
  let n := nat_of_ascii c in
  ((65 <=? n)%nat && (n <=? 90)%nat) || ((97 <=? n)%nat && (n <=? 122)%nat).

(** [\s] and [str.isspace] below 128: tab to carriage return, the four
    separators 28..31, and the space. *)
Definition is_space (c : ascii) : bool :=
  let n := nat_of_ascii c in
  ((9 <=? n)%nat && (n <=? 13)%nat) || ((28 <=? n)%nat && (n <=? 32)%nat).

Definition lower_char (c : ascii) : ascii :=
  if is_upper c then ascii_of_nat (nat_of_ascii c + 32) else c.

(** [s.lower()] *)
Fixpoint lower (s : string) : string :=
  match s with
  | EmptyString => EmptyString
  | String c r => String (lower_char c) (lower r)
  end.

(** [pattern in s]: the pattern starts at some position of [s]. *)
Fixpoint contains (pattern s : string) : bool :=
  prefix pattern s ||
  match s with
  | EmptyString => false
  | String _ r => contains pattern r
  end.

(** [re.sub(r'[^a-zA-Z\s]', '', s)] *)
Fixpoint remove_special (s : string) : string :=
  match s with
  | EmptyString => EmptyString
  | String c r =>
      if is_alpha c || is_space c then String c (remove_special r)
      else remove_special r
  end.

Fixpoint lstrip (s : string) : string :=
  match s with
  | EmptyString => EmptyString
  | String c r => if is_space c then lstrip r else s
  end.

(** [re.sub(r'\s+', ' ', s)]: each maximal run of white space becomes
    one space. *)
Fixpoint collapse_spaces (s : string) : string :=
  match s with
  | EmptyString => EmptyString
  | String c r =>
      if is_space c then
        match r with
        | EmptyString => " "
        | String d _ =>
            if is_space d then collapse_spaces r
            else String " " (collapse_spaces r)
        end
      else String c (collapse_spaces r)
  end.

Fixpoint rev_string (s : string) : string :=
  match s with
  | EmptyString => EmptyString
  | String c r => String.append (rev_string r) (String c EmptyString)
  end.

Definition rstrip (s : string) : string :=
  rev_string (lstrip (rev_string s)).

(** [s.strip()] *)
Definition strip (s : string) : string := rstrip (lstrip s).

(** [sep.join(l)] *)
Fixpoint join (sep : string) (l : list string) : string :=
  match l with
  | [] => EmptyString
  | [x] => x
  | x :: r => String.append x (String.append sep (join sep r))
  end.

(** Python truth value of a [str]. *)
Definition truthy (s : string) : bool :=
  match s with
  | EmptyString => false
  | String _ _ => true
  end.

End Text.

(** ** numpy and list slices *)

Module Numpy.

(** [l[-n:]] *)
Definition last_n {A : Type} (n : nat) (l : list A) : list A :=
  skipn (length l - n) l.

Definition score_at (scores : list Q) (i : nat) : Q := nth i scores 0%Q.

End Numpy.

(** ** pandas frames *)

(** A row. [None] is a missing review text. *)
Record Review := {
  review : option string;
  rating : Z;
  bank : string;
  sentiment_label : string;
  theme : string
}.

Record DataFrame := {
  columns : list string;
  index : list nat;
  rows : list Review
}.

Module Pandas.

Definition has_column (name : string) (df : DataFrame) : bool :=
  existsb (String.eqb name) (columns df).

Definition len (df : DataFrame) : nat := length (rows df).

(** [df[mask]]: the rows that satisfy the mask, under their labels. *)
Definition select (p : Review -> bool) (df : DataFrame) : DataFrame :=
  {| columns := columns df;
     index := map fst (filter (fun ir => p (snd ir)) (combine (index df) (rows df)));
     rows := filter p (rows df) |}.

(** [series.unique()]: the distinct values in order of first appearance. *)
Fixpoint unique (l : list string) : list string :=
  match l with
  | [] => []
  | x :: r => x :: filter (fun y => negb (String.eqb y x)) (unique r)
  end.

Definition occurrences (x : string) (l : list string) : nat :=
  count_occ string_dec l x.

(** Stable insertion by descending count: [x] goes before the first
    entry whose count is not larger. *)
Fixpoint insert_count (x : string * nat) (l : list (string * nat)) : list (string * nat) :=
  match l with
  | [] => [x]
  | y :: r =>
      if (snd y <=? snd x)%nat then x :: l
      else y :: insert_count x r
  end.

(** [series.value_counts()]: each distinct value with its number of
    occurrences, most frequent first; equal counts stay in order of
    first appearance. *)
Definition value_counts (l : list string) : list (string * nat) :=
  fold_right insert_count [] (map (fun k => (k, occurrences k l)) (unique l)).

(** [series.head(n)] *)
Definition head {A : Type} (n : nat) (l : list A) : list A := firstn n l.

End Pandas.

(** ** thematic_analysis.py *)

Module Thematic.

(** [preprocess_text] *)
Definition preprocess_text (text : option string) : string :=
  match text with
  | None => ""
  | Some text =>
      let text := Text.lower text in
      let text := Text.remove_special text in
      Text.strip (Text.collapse_spaces text)
  end.

(** [scores.argsort()[-10:][::-1]]. numpy's [argsort] is outside the
    repository: its default sort returns the indices in ascending order
    of score and leaves equal scores in no fixed order, so it is taken
    as the parameter [argsort]. *)
Definition top_indices (argsort : list Q -> list nat) (scores : list Q) : list nat :=
  rev (Numpy.last_n 10 (argsort scores)).

Definition positive (q : Q) : bool := negb (Qle_bool q 0).

(** The terms kept for one document: lines 71 to 73. A term index
    outside [feature_names] raises. *)
Definition keywords_of (argsort : list Q -> list nat) (scores : list Q)
    (feature_names : list string) : option (list string) :=
  mapM (nth_error feature_names)
       (filter (fun idx => positive (Numpy.score_at scores idx))
               (top_indices argsort scores)).

(** The loop of lines 68 to 76, from document number [i] on. A
    document without a row in the matrix raises. *)
Fixpoint keywords_loop (argsort : list Q -> list nat)
    (tfidf_matrix : list (list Q)) (feature_names : list string)
    (i : nat) (texts : list string) : option (list string) :=
  match texts with
  | [] => Some []
  | text :: rest =>
      entry <- (if Text.truthy (Text.strip text) then
                  scores <- nth_error tfidf_matrix i ;;
                  keywords <- keywords_of argsort scores feature_names ;;
                  Some (Text.join ", " (firstn 5 keywords))
                else Some "") ;;
      entries <- keywords_loop argsort tfidf_matrix feature_names (S i) rest ;;
      Some (entry :: entries)
  end.

Section Extractor.

(** numpy's [argsort], see [top_indices]. *)
Variable argsort : list Q -> list nat.

(** [TfidfVectorizer(max_features, 'english', (1, 2), min_df=2)
    .fit_transform(texts)] with [get_feature_names_out()]: scikit-learn
    is outside the repository. It yields the weight matrix, one row
    per text, and the vocabulary, or raises. *)
Variable fit_transform : nat -> list string -> option (list (list Q) * list string).

(** The body of the [try] block. *)
Definition try_extract (max_features : nat) (texts : list string)
  : option (list string * list string) :=
  fitted <- fit_transform max_features texts ;;
  keywords_list <- keywords_loop argsort (fst fitted) (snd fitted) 0 texts ;;
  Some (keywords_list, snd fitted).

(** [extract_keywords_tfidf] *)
Definition extract_keywords_tfidf (df : DataFrame) (max_features : nat)
  : list string * list string :=
  let texts := map (fun r => preprocess_text (review r)) (rows df) in
  match try_extract max_features texts with
  | Some result => result
  | None => (map (fun _ => "") texts, [])
  end.

End Extractor.

(** The taxonomy of [identify_themes_manual], in declaration order. *)
Definition theme_patterns : list (string * list string) :=
  [ ("Account Access Issues",
      ["login"; "password"; "access"; "account"; "sign"; "authentication";
       "verify"; "security"; "locked"; "blocked"]);
    ("Transaction Performance",
      ["transfer"; "transaction"; "payment"; "slow"; "fast"; "speed";
       "timeout"; "delay"; "processing"; "complete"; "failed"]);
    ("User Interface & Experience",
      ["ui"; "interface"; "design"; "layout"; "navigation"; "button";
       "screen"; "display"; "user"; "experience"; "ux"; "easy"; "simple"]);
    ("Customer Support",
      ["support"; "help"; "service"; "customer"; "contact"; "response";
       "assistance"; "issue"; "problem"; "complaint"; "resolve"]);
    ("App Reliability",
      ["crash"; "error"; "bug"; "glitch"; "freeze"; "hang"; "close";
       "restart"; "unstable"; "reliable"; "stable"; "working"]);
    ("Feature Requests",
      ["feature"; "add"; "want"; "need"; "missing"; "request"; "suggest";
       "improve"; "enhance"; "option"; "functionality"]);
    ("Security & Privacy",
      ["security"; "privacy"; "safe"; "secure"; "protection"; "data";
       "personal"; "information"; "trust"; "fraud"]) ].

(** The inner loop with its [break]. *)
Fixpoint any_pattern (patterns : list string) (keyword_lower : string) : bool :=
  match patterns with
  | [] => false
  | pattern :: rest =>
      if Text.contains pattern keyword_lower then true
      else any_pattern rest keyword_lower
  end.

(** The outer loop: [matched_themes] after all taxonomy entries. *)
Definition matched_themes (taxonomy : list (string * list string))
    (keyword_lower : string) : list string :=
  fold_left
    (fun matched entry =>
       if any_pattern (snd entry) keyword_lower then matched ++ [fst entry]
       else matched)
    taxonomy [].

(** The theme appended for one keyword string: lines 159 to 177. *)
Definition assign_theme (taxonomy : list (string * list string))
    (keywords : string) : string :=
  if negb (Text.truthy keywords) then ""
  else
    match matched_themes taxonomy (Text.lower keywords) with
    | primary :: _ => primary
    | [] => "Other"
    end.

(** [identify_themes_manual] *)
Definition identify_themes_manual (keywords_list : list string) (df : DataFrame)
  : list string :=
  fold_left
    (fun review_themes keywords =>
       review_themes ++ [assign_theme theme_patterns keywords])
    keywords_list [].

Definition review_only (r : Review) : Review :=
  {| review := review r; rating := 0; bank := ""; sentiment_label := ""; theme := "" |}.

(** [identify_themes_by_bank]. The result is the dictionary in
    insertion order; a label outside [keywords_list] raises. *)
Definition identify_themes_by_bank (df : DataFrame) (keywords_list : list string)
  : option (list (string * list string)) :=
  let banks := Pandas.unique (map bank (rows df)) in
  mapM
    (fun b =>
       let bank_df := Pandas.select (fun r => String.eqb (bank r) b) df in
       let bank_indices := index bank_df in
       bank_keywords <- mapM (nth_error keywords_list) bank_indices ;;
       let temp_df :=
         {| columns := ["review"];
            index := seq 0 (Pandas.len bank_df);
            rows := map review_only (rows bank_df) |} in
       Some (b, identify_themes_manual bank_keywords temp_df))
    banks.

(** [df['theme'] = themes] in [main]: a list of another length raises. *)
Definition set_theme (df : DataFrame) (themes : list string) : option DataFrame :=
  if (length themes =? Pandas.len df)%nat then
    Some {| columns :=
              if Pandas.has_column "theme" df then columns df
              else columns df ++ ["theme"];
            index := index df;
            rows :=
              map (fun rt =>
                     {| review := review (fst rt); rating := rating (fst rt);
                        bank := bank (fst rt);
                        sentiment_label := sentiment_label (fst rt);
                        theme := snd rt |})
                  (combine (rows df) themes) |}
  else None.

(** A token of a parsed document, with the attributes the extractor reads. *)
Record Token := {
  token_text : string;
  pos_ : string;
  is_stop : bool;
  is_punct : bool;
  lemma_ : string
}.

(** The keywords of one parsed document: lines 102 to 108. *)
Definition document_lemmas (doc : list Token) : list string :=
  fold_left
    (fun keywords token =>
       if existsb (String.eqb (pos_ token)) ["NOUN"; "ADJ"; "VERB"]
          && negb (is_stop token)
          && negb (is_punct token)
          && (2 <? String.length (token_text token))%nat
       then keywords ++ [Text.lower (lemma_ token)]
       else keywords)
    doc [].

(** [extract_keywords_spacy]. The global [nlp] is [None] when the model
    did not load, and the function then returns Python's [None]. *)
Definition extract_keywords_spacy (nlp : option (string -> list Token))
    (df : DataFrame) : option (list string) :=
  match nlp with
  | None => None
  | Some nlp =>
      Some (fold_left
              (fun keywords_list text =>
                 match text with
                 | None => keywords_list ++ [""]
                 | Some text =>
                     if (String.length (Text.strip text) =? 0)%nat
                     then keywords_list ++ [""]
                     else keywords_list
                          ++ [Text.join ", " (firstn 10 (document_lemmas (nlp text)))]
                 end)
              (map review (rows df)) [])
  end.

(** [Counter(l).most_common(n)]: the [n] most frequent values with their
    counts, equal counts in order of first appearance. *)
Definition most_common (n : nat) (l : list string) : list (string * nat) :=
  firstn n (Pandas.value_counts l).

Record SummaryRow := {
  s_bank : string;
  s_theme : string;
  s_count : nat;
  s_percentage : Q
}.

(** The theme summary of [main]: lines 253 to 262. *)
Definition theme_summary (bank_themes : list (string * list string))
  : list SummaryRow :=
  fold_left
    (fun theme_summary bt =>
       let themes_list := snd bt in
       fold_left
         (fun theme_summary tc =>
            theme_summary
            ++ [{| s_bank := fst bt; s_theme := fst tc; s_count := snd tc;
                   s_percentage :=
                     ((inject_Z (Z.of_nat (snd tc))
                       / inject_Z (Z.of_nat (length themes_list))) * 100)%Q |}])
         (most_common 5 themes_list) theme_summary)
    bank_themes [].

End Thematic.

(** ** generate_insights.py *)

Module Insights.

Record Insight := {
  i_theme : string;
  i_count : nat;
  i_percentage : Q
}.

(** The dictionary [insights] with its two lists. *)
Record InsightSet := {
  drivers : list Insight;
  pain_points : list Insight
}.

Record Recommendation := {
  category : string;
  recommendation : string;
  priority : string
}.

(** [(count / len(segment)) * 100] *)
Definition pct (count : nat) (segment : DataFrame) : Q :=
  ((inject_Z (Z.of_nat count) / inject_Z (Z.of_nat (Pandas.len segment))) * 100)%Q.

(** [theme and theme != 'Other'] *)
Definition reportable (theme : string) : bool :=
  Text.truthy theme && negb (String.eqb theme "Other").

(** [any(p['theme'] == theme for p in l)] *)
Definition any_theme (theme : string) (l : list Insight) : bool :=
  existsb (fun p => String.eqb (i_theme p) theme) l.

Definition entry (segment : DataFrame) (tc : string * nat) : Insight :=
  {| i_theme := fst tc; i_count := snd tc; i_percentage := pct (snd tc) segment |}.

(** The loop of a sentiment pass over the head of a tally: lines 49 to 56
    and 62 to 69. *)
Definition seed_loop (segment : DataFrame) (top : list (string * nat))
    (acc : list Insight) : list Insight :=
  fold_left
    (fun acc tc => if reportable (fst tc) then acc ++ [entry segment tc] else acc)
    top acc.

(** The loop of a rating pass: lines 77 to 85 and 91 to 99. *)
Definition append_loop (segment : DataFrame) (top : list (string * nat))
    (acc : list Insight) : list Insight :=
  fold_left
    (fun acc tc =>
       if reportable (fst tc) then
         if negb (any_theme (fst tc) acc) then acc ++ [entry segment tc] else acc
       else acc)
    top acc.

(** The four segments of a bank's frame. *)
Definition positive_reviews (bank_df : DataFrame) : DataFrame :=
  Pandas.select (fun r => String.eqb (sentiment_label r) "POSITIVE") bank_df.

Definition negative_reviews (bank_df : DataFrame) : DataFrame :=
  Pandas.select (fun r => String.eqb (sentiment_label r) "NEGATIVE") bank_df.

Definition low_ratings (bank_df : DataFrame) : DataFrame :=
  Pandas.select (fun r => (rating r <=? 2)%Z) bank_df.

Definition high_ratings (bank_df : DataFrame) : DataFrame :=
  Pandas.select (fun r => (4 <=? rating r)%Z) bank_df.

(** [segment['theme'].value_counts().head(n)] *)
Definition top_themes (n : nat) (segment : DataFrame) : list (string * nat) :=
  Pandas.head n (Pandas.value_counts (map theme (rows segment))).

(** The frame the analysis runs on: lines 31 to 36. *)
Definition bank_frame (df : DataFrame) (bank_name : option string) : DataFrame :=
  match bank_name with
  | Some name =>
      if Text.truthy name then Pandas.select (fun r => String.eqb (bank r) name) df
      else df
  | None => df
  end.

(** The sentiment block, lines 44 to 69. *)
Definition by_sentiment (bank_df : DataFrame) (insights : InsightSet) : InsightSet :=
  if Pandas.has_column "sentiment_label" bank_df && Pandas.has_column "theme" bank_df then
    let positive := positive_reviews bank_df in
    let insights :=
      if (0 <? Pandas.len positive)%nat then
        {| drivers := seed_loop positive (top_themes 3 positive) (drivers insights);
           pain_points := pain_points insights |}
      else insights in
    let negative := negative_reviews bank_df in
    if (0 <? Pandas.len negative)%nat then
      {| drivers := drivers insights;
         pain_points := seed_loop negative (top_themes 3 negative) (pain_points insights) |}
    else insights
  else insights.

(** The rating block, lines 72 to 99. *)
Definition by_rating (bank_df : DataFrame) (insights : InsightSet) : InsightSet :=
  if Pandas.has_column "rating" bank_df then
    let low := low_ratings bank_df in
    let insights :=
      if (0 <? Pandas.len low)%nat && Pandas.has_column "theme" low then
        {| drivers := drivers insights;
           pain_points := append_loop low (top_themes 2 low) (pain_points insights) |}
      else insights in
    let high := high_ratings bank_df in
    if (0 <? Pandas.len high)%nat && Pandas.has_column "theme" high then
      {| drivers := append_loop high (top_themes 2 high) (drivers insights);
         pain_points := pain_points insights |}
    else insights
  else insights.

(** [identify_drivers_and_pain_points] *)
Definition identify_drivers_and_pain_points (df : DataFrame) (bank_name : option string)
  : InsightSet :=
  let bank_df := bank_frame df bank_name in
  let insights := {| drivers := []; pain_points := [] |} in
  by_rating bank_df (by_sentiment bank_df insights).

(** The [if]/[elif] chain on a pain point's theme: lines 113 to 142. *)
Definition pain_point_recommendation (theme : string) : option Recommendation :=
  if Text.contains "Account Access" theme then
    Some {| category := "Account Access";
            recommendation := "Improve login process and authentication mechanisms. Consider implementing biometric authentication and password recovery options.";
            priority := "High" |}
  else if Text.contains "Transaction Performance" theme then
    Some {| category := "Performance";
            recommendation := "Optimize transaction processing speed. Investigate server response times and implement caching strategies.";
            priority := "High" |}
  else if Text.contains "User Interface" theme || Text.contains "Experience" theme then
    Some {| category := "UX/UI";
            recommendation := "Redesign user interface for better usability. Conduct user testing and implement modern design patterns.";
            priority := "Medium" |}
  else if Text.contains "Customer Support" theme then
    Some {| category := "Support";
            recommendation := "Enhance customer support channels. Consider implementing AI chatbot for faster response times.";
            priority := "High" |}
  else if Text.contains "Reliability" theme then
    Some {| category := "Stability";
            recommendation := "Fix app crashes and stability issues. Implement comprehensive error handling and testing.";
            priority := "Critical" |}
  else None.

(** The [if] on a driver's theme: lines 147 to 152. *)
Definition driver_recommendation (theme : string) : option Recommendation :=
  if Text.contains "Transaction Performance" theme then
    Some {| category := "Enhancement";
            recommendation := "Leverage fast transaction processing as a competitive advantage. Market this feature prominently.";
            priority := "Low" |}
  else None.

Definition append_if {A : Type} (l : list A) (o : option A) : list A :=
  match o with
  | Some a => l ++ [a]
  | None => l
  end.

(** The two loops of [generate_recommendations] on an insight set. *)
Definition recommend (insights : InsightSet) : list Recommendation :=
  let recommendations := [] in
  let recommendations :=
    fold_left
      (fun recs pain_point => append_if recs (pain_point_recommendation (i_theme pain_point)))
      (pain_points insights) recommendations in
  fold_left
    (fun recs driver => append_if recs (driver_recommendation (i_theme driver)))
    (drivers insights) recommendations.

(** [generate_recommendations] *)
Definition generate_recommendations (df : DataFrame) (bank_name : string)
  : list Recommendation :=
  recommend (identify_drivers_and_pain_points df (Some bank_name)).

Record Comparison := {
  avg_rating : Q;
  total_reviews : nat;
  positive_pct : Q;
  negative_pct : Q
}.

(** [series.mean()] of a column of integers. *)
Definition mean (l : list Z) : Q :=
  (inject_Z (fold_right Z.add 0%Z l) / inject_Z (Z.of_nat (length l)))%Q.

(** [len(part) / len(whole) * 100], as an exact rational. *)
Definition share (part whole : DataFrame) : Q :=
  ((inject_Z (Z.of_nat (Pandas.len part)) / inject_Z (Z.of_nat (Pandas.len whole)))
   * 100)%Q.

(** [compare_banks]. The banks being distinct, each assignment to the
    dictionary adds an entry. *)
Definition compare_banks (df : DataFrame) : list (string * Comparison) :=
  let banks := Pandas.unique (map bank (rows df)) in
  fold_left
    (fun comparison b =>
       let bank_df := Pandas.select (fun r => String.eqb (bank r) b) df in
       comparison
       ++ [(b,
            {| avg_rating :=
                 if Pandas.has_column "rating" bank_df
                 then mean (map rating (rows bank_df)) else 0%Q;
               total_reviews := Pandas.len bank_df;
               positive_pct :=
                 if Pandas.has_column "sentiment_label" bank_df
                 then share (positive_reviews bank_df) bank_df else 0%Q;
               negative_pct :=
                 if Pandas.has_column "sentiment_label" bank_df
                 then share (negative_reviews bank_df) bank_df else 0%Q |})])
    banks [].

End Insights.


(** * Vocabulary of the statements *)

Module Spec.

Import Thematic.

(** Empty, or opening with a character that is not white space. *)
Definition clean_start (s : string) : Prop :=
  match s with
  | EmptyString => True
  | String c _ => Text.is_space c = false
  end.

(** Some pattern of the list occurs in the lower-cased keyword string. *)
Definition triggers (patterns : list string) (keywords : string) : Prop :=
  exists p, In p patterns /\ Text.contains p (Text.lower keywords) = true.

Definition taxonomy_order : list string :=
  ["Account Access Issues"; "Transaction Performance";
   "User Interface & Experience"; "Customer Support"; "App Reliability";
   "Feature Requests"; "Security & Privacy"].

Definition patterns_of (t : string) : list string :=
  match find (fun entry => String.eqb (fst entry) t) theme_patterns with
  | Some entry => snd entry
  | None => []
  end.

(** What numpy promises of [argsort]: the indices of the scores, each
    once, in ascending order of score. *)
Definition sorts (argsort : list Q -> list nat) : Prop :=
  forall scores,
    Permutation (argsort scores) (seq 0 (length scores))
    /\ StronglySorted
         (fun a b => (Numpy.score_at scores a <= Numpy.score_at scores b)%Q)
         (argsort scores).

(** Weights do not grow along a list of indices. *)
Definition by_weight (scores : list Q) : list nat -> Prop :=
  StronglySorted (fun a b => (Numpy.score_at scores b <= Numpy.score_at scores a)%Q).

(** The indices of the terms stored for a document. *)
Definition selected (argsort : list Q -> list nat) (scores : list Q) : list nat :=
  firstn 5 (filter (fun idx => positive (Numpy.score_at scores idx))
                   (top_indices argsort scores)).

(** Ties in the words of the specification: of two listed terms of equal
    weight, the one listed first is the earlier in the vocabulary. *)
Definition ties_in_vocabulary_order (scores : list Q) (l : list nat) : Prop :=
  forall before i between j after,
    l = before ++ i :: between ++ j :: after ->
    (Numpy.score_at scores i == Numpy.score_at scores j)%Q ->
    i < j.

(** Counts do not grow along the list. *)
Definition descending (l : list (string * nat)) : Prop :=
  StronglySorted (fun a b => snd b <= snd a) l.

Import Insights.

Definition no_insights : InsightSet := {| drivers := []; pain_points := [] |}.

(** The insight set as the sentiment block leaves it: the seed lists. *)
Definition seeded (df : DataFrame) (bank_name : option string) : InsightSet :=
  by_sentiment (bank_frame df bank_name) no_insights.

Definition themes_of (segment : DataFrame) : list string :=
  map theme (rows segment).

(** The insight counts its theme within the segment and its percentage
    is that share of the segment, which is not empty. *)
Definition from_segment (segment : DataFrame) (p : Insight) : Prop :=
  0 < Pandas.len segment
  /\ In (i_theme p) (themes_of segment)
  /\ i_count p = Pandas.occurrences (i_theme p) (themes_of segment)
  /\ (i_percentage p
      == 100 * inject_Z (Z.of_nat (i_count p)) / inject_Z (Z.of_nat (Pandas.len segment)))%Q.

(** What a sentiment pass and a rating pass contribute from a segment,
    the latter given the entries already [present]. *)
Definition seed_of (segment : DataFrame) : list Insight :=
  map (entry segment)
      (filter (fun tc => reportable (fst tc)) (top_themes 3 segment)).

Definition extra_of (segment : DataFrame) (present : list Insight) : list Insight :=
  map (entry segment)
      (filter (fun tc => reportable (fst tc) && negb (any_theme (fst tc) present))
              (top_themes 2 segment)).

Definition sentiment_columns (df : DataFrame) : bool :=
  Pandas.has_column "sentiment_label" df && Pandas.has_column "theme" df.

Definition rating_columns (df : DataFrame) : bool :=
  Pandas.has_column "rating" df && Pandas.has_column "theme" df.

Definition to_list {A : Type} (o : option A) : list A :=
  match o with
  | Some a => [a]
  | None => []
  end.

(** The substrings the chain on a pain point's theme looks for. *)
Definition pain_triggers : list string :=
  ["Account Access"; "Transaction Performance"; "User Interface"; "Experience";
   "Customer Support"; "Reliability"].

(** The seed list in the words of the specification: the three most
    frequent themes of a tally that leaves "" and Other out. *)
Definition top3_excluding (segment : DataFrame) : list Insight :=
  map (entry segment)
      (Pandas.head 3 (Pandas.value_counts (filter reportable (themes_of segment)))).

(** ** Vocabulary for the further properties *)

Definition is_lower (c : ascii) : bool :=
  let n := nat_of_ascii c in (97 <=? n)%nat && (n <=? 122)%nat.

(** A lower-case letter or the space. *)
Definition plain (c : ascii) : bool := is_lower c || Ascii.eqb c " ".

Fixpoint all_chars (p : ascii -> bool) (s : string) : bool :=
  match s with
  | EmptyString => true
  | String c r => p c && all_chars p r
  end.

(** No two white-space characters side by side. *)
Fixpoint single_spaced (s : string) : bool :=
  match s with
  | EmptyString => true
  | String c r =>
      match r with
      | EmptyString => true
      | String d _ => negb (Text.is_space c && Text.is_space d) && single_spaced r
      end
  end.

(** The entries of a list under one key. *)
Definition group {A : Type} (key : A -> string) (b : string) (l : list A) : list A :=
  filter (fun a => String.eqb (key a) b) l.

(** Counts do not grow along a list of insights. *)
Definition ranked (l : list Insights.Insight) : Prop :=
  StronglySorted (fun a b => Insights.i_count b <= Insights.i_count a) l.

(** The category and priority pairs the mapper can produce. *)
Definition recommendation_kinds : list (string * string) :=
  [("Account Access", "High"); ("Performance", "High"); ("UX/UI", "Medium");
   ("Support", "High"); ("Stability", "Critical"); ("Enhancement", "Low")].

(** The test of lines 104 to 107 on a token. *)
Definition content_word (token : Thematic.Token) : bool :=
  existsb (String.eqb (Thematic.pos_ token)) ["NOUN"; "ADJ"; "VERB"]
  && negb (Thematic.is_stop token)
  && negb (Thematic.is_punct token)
  && (2 <? String.length (Thematic.token_text token))%nat.

(** The summary rows of one bank. *)
Definition bank_rows (bank_name : string) (themes_list : list string)
  : list Thematic.SummaryRow :=
  map (fun tc =>
         {| Thematic.s_bank := bank_name;
            Thematic.s_theme := fst tc;
            Thematic.s_count := snd tc;
            Thematic.s_percentage :=
              ((inject_Z (Z.of_nat (snd tc))
                / inject_Z (Z.of_nat (length themes_list))) * 100)%Q |})
      (Thematic.most_common 5 themes_list).

End Spec.

(** * Sample data

    A stand-in for the vectorizer and a few frames, to run the functions
    on concrete input. *)

Module Samples.

Fixpoint words_from (s current : string) : list string :=
  match s with
  | EmptyString => if Text.truthy current then [current] else []
  | String c r =>
      if Text.is_space c then
        if Text.truthy current then current :: words_from r "" else words_from r ""
      else words_from r (String.append current (String c EmptyString))
  end.

Definition words (s : string) : list string := words_from s "".

Definition document_frequency (term : string) (texts : list string) : nat :=
  length (filter (fun text => existsb (String.eqb term) (words text)) texts).

(** Unigrams found in at least two texts, at most [max_features] of
    them, weighted by their number of occurrences in the text; no term
    left raises, as scikit-learn does on an empty vocabulary. *)
Definition count_vectorizer (max_features : nat) (texts : list string)
  : option (list (list Q) * list string) :=
  let vocabulary :=
    firstn max_features
      (filter (fun term => (2 <=? document_frequency term texts)%nat)
              (Pandas.unique (flat_map words texts))) in
  match vocabulary with
  | [] => None
  | _ =>
      Some (map (fun text =>
                   map (fun term =>
                          inject_Z (Z.of_nat (Pandas.occurrences term (words text))))
                       vocabulary)
                texts,
            vocabulary)
  end.

Definition all_columns : list string :=
  ["review"; "rating"; "bank"; "sentiment_label"; "theme"].

Definition row (text : string) (stars : Z) (name label topic : string) : Review :=
  {| review := Some text; rating := stars; bank := name;
     sentiment_label := label; theme := topic |}.

Definition frame (l : list Review) : DataFrame :=
  {| columns := all_columns; index := seq 0 (length l); rows := l |}.

(** Three reviews of one bank, two of them alike. *)
Definition cbe_reviews : DataFrame :=
  frame [ row "Login failed!" 1 "CBE" "NEGATIVE" "";
          row "login failed" 1 "CBE" "NEGATIVE" "";
          row "Great transfer speed" 5 "CBE" "POSITIVE" "" ].

(** No term in two reviews. *)
Definition degenerate_reviews : DataFrame :=
  frame [ row "slow app" 2 "BOA" "NEGATIVE" "";
          row "nice design" 5 "BOA" "POSITIVE" "" ].

(** A review whose text normalizes to nothing. *)
Definition blank_review : DataFrame :=
  frame [ row "login failed" 1 "CBE" "NEGATIVE" "";
          row "!!! 123" 3 "CBE" "NEUTRAL" "";
          row "login failed again" 1 "CBE" "NEGATIVE" "" ].

(** Negative reviews of one bank: Other four times, then three themes
    three, two and one time. *)
Definition crowded : DataFrame :=
  frame [ row "ok" 1 "CBE" "NEGATIVE" "Other";
          row "ok" 1 "CBE" "NEGATIVE" "Other";
          row "ok" 1 "CBE" "NEGATIVE" "Other";
          row "ok" 1 "CBE" "NEGATIVE" "Other";
          row "login" 1 "CBE" "NEGATIVE" "Account Access Issues";
          row "login" 1 "CBE" "NEGATIVE" "Account Access Issues";
          row "login" 1 "CBE" "NEGATIVE" "Account Access Issues";
          row "slow" 3 "CBE" "NEGATIVE" "Transaction Performance";
          row "slow" 3 "CBE" "NEGATIVE" "Transaction Performance";
          row "help" 3 "CBE" "NEGATIVE" "Customer Support" ].

(** One theme praised and blamed. *)
Definition divided : DataFrame :=
  frame [ row "slow transfer" 1 "BOA" "NEGATIVE" "Transaction Performance";
          row "fast transfer" 5 "BOA" "POSITIVE" "Transaction Performance";
          row "crash" 1 "BOA" "NEGATIVE" "App Reliability" ].

(** One step of an insertion sort: [i] goes before the first index whose
    score is not smaller. *)
Fixpoint insert_index (scores : list Q) (i : nat) (l : list nat) : list nat :=
  match l with
  | [] => [i]
  | j :: r =>
      if Qle_bool (Numpy.score_at scores i) (Numpy.score_at scores j) then i :: l
      else j :: insert_index scores i r
  end.

(** An [argsort] by insertion, to run the extractor on samples: one of
    the orders numpy's sort may return. Equal scores stay in index
    order. *)
Definition insertion_argsort (scores : list Q) : list nat :=
  fold_right (insert_index scores) [] (seq 0 (length scores)).

(** Six terms of one weight in a document. *)
Definition tied_scores : list Q := [1#3; 1#3; 1#3; 1#3; 1#3; 1#3]%Q.

Definition tied_names : list string :=
  ["app"; "bank"; "card"; "good"; "nice"; "work"].

(** Three reviews whose index labels are not their positions, as after
    sorting or filtering a frame. *)
Definition reindexed : DataFrame :=
  {| columns := all_columns;
     index := [2; 0; 1];
     rows := [ row "cannot login" 1 "CBE" "NEGATIVE" "";
               row "no help at all" 2 "CBE" "NEGATIVE" "";
               row "fast transfer" 5 "BOA" "POSITIVE" "" ] |}.

(** A vectorizer that returns no row at all. *)
Definition rowless_vectorizer (max_features : nat) (texts : list string)
  : option (list (list Q) * list string) :=
  Some ([], ["login"]).

(** The frame [crowded] without its theme column. *)
Definition untagged : DataFrame :=
  {| columns := ["review"; "rating"; "bank"; "sentiment_label"];
     index := index crowded; rows := rows crowded |}.

(** A parser that takes every word for a noun that is its own lemma. *)
Definition noun_tagger (text : string) : list Thematic.Token :=
  map (fun w =>
         {| Thematic.token_text := w; Thematic.pos_ := "NOUN";
            Thematic.is_stop := false; Thematic.is_punct := false;
            Thematic.lemma_ := w |})
      (words text).

(** Reviews the classifier could not place. *)
Definition unplaced : DataFrame :=
  frame [ row "ok" 1 "CBE" "NEGATIVE" "Other";
          row "" 5 "CBE" "POSITIVE" "";
          row "fine" 4 "CBE" "POSITIVE" "Other" ].

End Samples.
(** * Properties *)

(** ** Facts on lists and loops *)

Section Loops.

Context {A B : Type}.

(** A loop that appends to its accumulator is a [flat_map]. *)
Lemma fold_left_append (step : list B -> A -> list B) (g : A -> list B) :
  (forall acc a, step acc a = acc ++ g a) ->
  forall l acc, fold_left step l acc = acc ++ flat_map g l.
Proof.
  intros Hstep l; induction l as [|a l IH]; intros acc; simpl.
  - now rewrite app_nil_r.
  - rewrite IH, Hstep, <- app_assoc. reflexivity.
Qed.

Lemma flat_map_filter (keep : A -> bool) (f : A -> B) (l : list A) :
  flat_map (fun a => if keep a then [f a] else []) l = map f (filter keep l).
Proof.
  induction l as [|a l IH]; simpl; [reflexivity|].
  destruct (keep a); simpl; now rewrite IH.
Qed.

Lemma fold_left_keep (keep : A -> bool) (f : A -> B) (l : list A) (acc : list B) :
  fold_left (fun acc a => if keep a then acc ++ [f a] else acc) l acc
  = acc ++ map f (filter keep l).
Proof.
  rewrite <- flat_map_filter.
  apply fold_left_append. intros acc' a.
  destruct (keep a); [reflexivity | now rewrite app_nil_r].
Qed.

Lemma mapM_length (f : A -> option B) (l : list A) (r : list B) :
  mapM f l = Some r -> length r = length l.
Proof.
  revert r; induction l as [|a l IH]; simpl; intros r H.
  - now inversion H.
  - destruct (f a); simpl in H; [|discriminate].
    destruct (mapM f l) as [bs|]; simpl in H; [|discriminate].
    inversion H; subst; simpl. f_equal. now apply IH.
Qed.

Lemma mapM_total (f : A -> option B) (g : A -> B) (l : list A) :
  Forall (fun a => f a = Some (g a)) l -> mapM f l = Some (map g l).
Proof.
  induction 1 as [|a l Ha _ IH]; simpl; [reflexivity|].
  now rewrite Ha, IH.
Qed.

End Loops.

Lemma truthy_false (s : string) : Text.truthy s = false <-> s = "".
Proof. destruct s; simpl; split; congruence. Qed.

Lemma truthy_true (s : string) : Text.truthy s = true <-> s <> "".
Proof. destruct s; simpl; split; congruence. Qed.

(** ** Stripping *)

Section Strip.

Import Text Spec.

Lemma append_empty (s : string) : String.append s "" = s.
Proof. induction s; simpl; congruence. Qed.

Lemma append_assoc (a b c : string) :
  String.append (String.append a b) c = String.append a (String.append b c).
Proof. induction a; simpl; congruence. Qed.

Lemma rev_string_append (a b : string) :
  rev_string (String.append a b) = String.append (rev_string b) (rev_string a).
Proof.
  induction a as [|c a IH]; simpl.
  - now rewrite append_empty.
  - now rewrite IH, append_assoc.
Qed.

Lemma rev_string_involutive (s : string) : rev_string (rev_string s) = s.
Proof.
  induction s as [|c s IH]; simpl; [reflexivity|].
  rewrite rev_string_append, IH. reflexivity.
Qed.

Lemma lstrip_clean (s : string) : clean_start (lstrip s).
Proof.
  induction s as [|c s IH]; simpl; [exact I|].
  destruct (is_space c) eqn:E; [exact IH | exact E].
Qed.

Lemma lstrip_of_clean (s : string) : clean_start s -> lstrip s = s.
Proof. destruct s as [|c s]; simpl; [reflexivity|]. now intros ->. Qed.

Lemma lstrip_append_char (t : string) (c : ascii) :
  is_space c = false ->
  lstrip (String.append t (String c "")) = String.append (lstrip t) (String c "").
Proof.
  intros Hc. induction t as [|d t IH]; simpl.
  - now rewrite Hc.
  - destruct (is_space d); [exact IH | reflexivity].
Qed.

Lemma rstrip_clean (s : string) : clean_start s -> clean_start (rstrip s).
Proof.
  destruct s as [|c s]; simpl; [exact (fun H => H)|]. intros Hc.
  unfold rstrip. simpl. rewrite lstrip_append_char by assumption.
  rewrite rev_string_append. simpl. exact Hc.
Qed.

Lemma rstrip_idempotent (s : string) : rstrip (rstrip s) = rstrip s.
Proof.
  unfold rstrip. rewrite rev_string_involutive.
  now rewrite (lstrip_of_clean _ (lstrip_clean _)).
Qed.

Lemma strip_idempotent (s : string) : strip (strip s) = strip s.
Proof.
  unfold strip.
  rewrite (lstrip_of_clean (rstrip (lstrip s))).
  - apply rstrip_idempotent.
  - apply rstrip_clean, lstrip_clean.
Qed.

End Strip.

(** ** The theme classifier *)

Section Classifier.

Import Thematic Spec.

Lemma any_pattern_iff (patterns : list string) (s : string) :
  any_pattern patterns s = true <-> exists p, In p patterns /\ Text.contains p s = true.
Proof.
  induction patterns as [|p r IH]; simpl.
  - split; [discriminate | intros [? [[] _]]].
  - destruct (Text.contains p s) eqn:E.
    + split; [|reflexivity]. intros _. exists p. auto.
    + rewrite IH. split.
      * intros [q [Hq Hc]]. exists q. auto.
      * intros [q [[->|Hq] Hc]]; [congruence|]. exists q. auto.
Qed.

Lemma matched_themes_filter (taxonomy : list (string * list string)) (s : string) :
  matched_themes taxonomy s
  = map fst (filter (fun entry => any_pattern (snd entry) s) taxonomy).
Proof. unfold matched_themes. now rewrite fold_left_keep. Qed.

Lemma identify_themes_manual_map (keywords_list : list string) (df : DataFrame) :
  identify_themes_manual keywords_list df
  = map (assign_theme theme_patterns) keywords_list.
Proof.
  unfold identify_themes_manual.
  rewrite (fold_left_append _ (fun k => [assign_theme theme_patterns k]))
    by reflexivity.
  simpl. induction keywords_list as [|k l IH]; simpl; congruence.
Qed.

(** The first entry with a trigger decides, whatever follows it. *)
Lemma assign_theme_first (before after : list (string * list string))
    (t : string) (patterns : list string) (keywords : string) :
  keywords <> "" ->
  triggers patterns keywords ->
  (forall entry, In entry before -> ~ triggers (snd entry) keywords) ->
  assign_theme (before ++ (t, patterns) :: after) keywords = t.
Proof.
  intros Hne Hhit Hmiss. unfold assign_theme.
  apply truthy_true in Hne. rewrite Hne. simpl.
  rewrite matched_themes_filter, filter_app.
  replace (filter _ before) with (@nil (string * list string)).
  - simpl. apply any_pattern_iff in Hhit. now rewrite Hhit.
  - symmetry. induction before as [|e b IH]; simpl; [reflexivity|].
    destruct (any_pattern (snd e) (Text.lower keywords)) eqn:E.
    + exfalso. apply (Hmiss e); [now left|]. now apply any_pattern_iff.
    + apply IH. intros e' He'. apply Hmiss. now right.
Qed.

Lemma assign_theme_other (taxonomy : list (string * list string)) (keywords : string) :
  keywords <> "" ->
  (forall entry, In entry taxonomy -> ~ triggers (snd entry) keywords) ->
  assign_theme taxonomy keywords = "Other".
Proof.
  intros Hne Hmiss. unfold assign_theme.
  apply truthy_true in Hne. rewrite Hne. simpl.
  rewrite matched_themes_filter.
  replace (filter _ taxonomy) with (@nil (string * list string)); [reflexivity|].
  symmetry. induction taxonomy as [|e b IH]; simpl; [reflexivity|].
  destruct (any_pattern (snd e) (Text.lower keywords)) eqn:E.
  - exfalso. apply (Hmiss e); [now left|]. now apply any_pattern_iff.
  - apply IH. intros e' He'. apply Hmiss. now right.
Qed.

(** C1. The theme of a review with a non-empty keyword string is that of
    the first taxonomy entry, in the declaration order Account Access
    Issues, Transaction Performance, User Interface & Experience,
    Customer Support, App Reliability, Feature Requests, Security &
    Privacy, one of whose patterns occurs in the lower-cased keyword
    string. In particular a string with triggers of both Account Access
    Issues and Customer Support gets Account Access Issues. *)
Theorem first_match_wins (keywords_list : list string) (df : DataFrame)
    (i : nat) (keywords : string) :
  nth_error keywords_list i = Some keywords ->
  keywords <> "" ->
  map fst theme_patterns = taxonomy_order
  /\ (forall before t patterns after,
        theme_patterns = before ++ (t, patterns) :: after ->
        triggers patterns keywords ->
        (forall entry, In entry before -> ~ triggers (snd entry) keywords) ->
        nth_error (identify_themes_manual keywords_list df) i = Some t)
  /\ (triggers (patterns_of "Account Access Issues") keywords ->
      triggers (patterns_of "Customer Support") keywords ->
      nth_error (identify_themes_manual keywords_list df) i
      = Some "Account Access Issues").
Proof.
  intros Hi Hne. rewrite identify_themes_manual_map, nth_error_map, Hi. simpl.
  split; [reflexivity|]. split.
  - intros before t patterns after Heq Hhit Hmiss. f_equal.
    rewrite Heq. now apply assign_theme_first.
  - intros Hhit _. f_equal.
    apply (assign_theme_first [] (tl theme_patterns)); [assumption|exact Hhit|].
    intros e [].
Qed.

Lemma first_match_wins_witness :
  nth_error ["help, Login"] 0 = Some "help, Login"
  /\ "help, Login" <> ""
  /\ nth_error (identify_themes_manual ["help, Login"] Samples.cbe_reviews) 0
     = Some "Account Access Issues".
Proof.
  split; [reflexivity|]. split; [discriminate|].
  apply (first_match_wins ["help, Login"] Samples.cbe_reviews 0 "help, Login"
           eq_refl ltac:(discriminate)).
  - exists "login". split; [simpl; tauto | reflexivity].
  - exists "help". split; [simpl; tauto | reflexivity].
Defined.

Lemma no_trigger (patterns : list string) (keywords : string) :
  any_pattern patterns (Text.lower keywords) = false -> ~ triggers patterns keywords.
Proof.
  intros E H. apply any_pattern_iff in H. congruence.
Qed.

(** A text that strips to nothing gets the empty keyword string. *)
Lemma keywords_loop_blank (argsort : list Q -> list nat)
    (tfidf_matrix : list (list Q)) (feature_names : list string) :
  forall texts i keywords_list n text,
    keywords_loop argsort tfidf_matrix feature_names i texts = Some keywords_list ->
    nth_error texts n = Some text ->
    Text.truthy (Text.strip text) = false ->
    nth_error keywords_list n = Some "".
Proof.
  induction texts as [|t rest IH]; intros i kl n text Hloop Hn Hblank.
  - destruct n; discriminate.
  - simpl in Hloop.
    destruct (if Text.truthy (Text.strip t) then _ else _) as [e|] eqn:He;
      simpl in Hloop; [|discriminate].
    destruct (keywords_loop argsort tfidf_matrix feature_names (S i) rest) as [es|] eqn:Hes;
      simpl in Hloop; [|discriminate].
    inversion Hloop; subst kl. destruct n as [|n]; simpl in *.
    + inversion Hn; subst t. rewrite Hblank in He. congruence.
    + eapply IH; eauto.
Qed.

Lemma keywords_loop_length (argsort : list Q -> list nat)
    (tfidf_matrix : list (list Q)) (feature_names : list string) :
  forall texts i keywords_list,
    keywords_loop argsort tfidf_matrix feature_names i texts = Some keywords_list ->
    length keywords_list = length texts.
Proof.
  induction texts as [|t rest IH]; intros i kl Hloop; simpl in Hloop.
  - now inversion Hloop.
  - destruct (if Text.truthy (Text.strip t) then _ else _) as [e|];
      simpl in Hloop; [|discriminate].
    destruct (keywords_loop argsort tfidf_matrix feature_names (S i) rest) as [es|] eqn:Hes;
      simpl in Hloop; [|discriminate].
    inversion Hloop; subst kl. simpl. f_equal. eauto.
Qed.

Lemma map_const_repeat {A B : Type} (b : B) (l : list A) :
  map (fun _ => b) l = repeat b (length l).
Proof. induction l; simpl; congruence. Qed.

Lemma nth_error_repeat_lt {A : Type} (a : A) (n i : nat) :
  i < n -> nth_error (repeat a n) i = Some a.
Proof.
  revert i; induction n as [|n IH]; intros [|i] H; simpl; try lia; auto.
  apply IH. lia.
Qed.

(** An empty normalized text gets the empty keyword string on both
    paths of the extractor. *)
Lemma extract_blank (argsort : list Q -> list nat)
    (fit_transform : nat -> list string -> option (list (list Q) * list string))
    (df : DataFrame) (max_features i : nat) (r : Review) :
  nth_error (rows df) i = Some r ->
  preprocess_text (review r) = "" ->
  nth_error (fst (extract_keywords_tfidf argsort fit_transform df max_features)) i
  = Some "".
Proof.
  intros Hi Hblank. unfold extract_keywords_tfidf, try_extract.
  set (texts := map (fun r => preprocess_text (review r)) (rows df)).
  assert (Ht : nth_error texts i = Some "").
  { unfold texts. rewrite nth_error_map, Hi. simpl. now rewrite Hblank. }
  destruct (fit_transform max_features texts) as [[m names]|]; simpl.
  - destruct (keywords_loop argsort m names 0 texts) as [kl|] eqn:Hloop; simpl.
    + eapply keywords_loop_blank; eauto.
    + rewrite nth_error_map, Ht. reflexivity.
  - rewrite nth_error_map, Ht. reflexivity.
Qed.

(** C6. An empty keyword set gives the theme "" whatever the taxonomy
    holds; a non-empty keyword string in which no pattern of the
    taxonomy occurs gives Other; the two differ; and a document whose
    normalized text is empty gets the empty keyword set and the theme
    "". *)
Theorem empty_and_other (argsort : list Q -> list nat)
    (fit_transform : nat -> list string -> option (list (list Q) * list string))
    (keywords_list : list string) (df : DataFrame) (max_features i : nat) :
  (forall taxonomy, assign_theme taxonomy (Text.join ", " []) = "")
  /\ (nth_error keywords_list i = Some "" ->
      nth_error (identify_themes_manual keywords_list df) i = Some "")
  /\ (forall keywords,
        nth_error keywords_list i = Some keywords ->
        keywords <> "" ->
        (forall entry, In entry theme_patterns -> ~ triggers (snd entry) keywords) ->
        nth_error (identify_themes_manual keywords_list df) i = Some "Other")
  /\ "" <> "Other"
  /\ (forall r,
        nth_error (rows df) i = Some r ->
        preprocess_text (review r) = "" ->
        let extracted :=
          fst (extract_keywords_tfidf argsort fit_transform df max_features) in
        nth_error extracted i = Some (Text.join ", " [])
        /\ nth_error (identify_themes_manual extracted df) i = Some "").
Proof.
  split; [reflexivity|]. split; [|split; [|split]].
  - intros Hi. now rewrite identify_themes_manual_map, nth_error_map, Hi.
  - intros keywords Hi Hne Hmiss.
    rewrite identify_themes_manual_map, nth_error_map, Hi. simpl. f_equal.
    now apply assign_theme_other.
  - discriminate.
  - intros r Hi Hblank extracted.
    assert (E : nth_error extracted i = Some "")
      by (eapply extract_blank; eassumption).
    split; [exact E|].
    now rewrite identify_themes_manual_map, nth_error_map, E.
Qed.

Lemma empty_and_other_witness :
  nth_error ["good, bank"; ""] 0 = Some "good, bank"
  /\ nth_error (identify_themes_manual ["good, bank"; ""] Samples.blank_review) 0
     = Some "Other"
  /\ nth_error (identify_themes_manual ["good, bank"; ""] Samples.blank_review) 1
     = Some ""
  /\ preprocess_text (Some "!!! 123") = ""
  /\ nth_error
       (fst (extract_keywords_tfidf Samples.insertion_argsort Samples.count_vectorizer
               Samples.blank_review 50)) 1
     = Some "".
Proof.
  pose proof (empty_and_other Samples.insertion_argsort Samples.count_vectorizer
                ["good, bank"; ""] Samples.blank_review 50 0) as H0.
  pose proof (empty_and_other Samples.insertion_argsort Samples.count_vectorizer
                ["good, bank"; ""] Samples.blank_review 50 1) as H1.
  destruct H0 as (_ & _ & Hother & _).
  destruct H1 as (_ & Hempty & _ & _ & Hblank).
  split; [reflexivity|]. split.
  - apply (Hother "good, bank" eq_refl); [discriminate|].
    intros entry Hin. apply no_trigger.
    simpl in Hin.
    repeat (destruct Hin as [<-|Hin]; [reflexivity|]). destruct Hin.
  - split; [exact (Hempty eq_refl)|]. split; [reflexivity|].
    exact (proj1 (Hblank _ eq_refl eq_refl)).
Defined.

Lemma identify_themes_manual_blank (n : nat) (df : DataFrame) :
  identify_themes_manual (repeat "" n) df = repeat "" n.
Proof.
  rewrite identify_themes_manual_map.
  induction n as [|n IH]; [reflexivity|].
  change (repeat "" (S n)) with ("" :: repeat "" n).
  rewrite map_cons, IH. reflexivity.
Qed.

(** C7. When the vectorizer raises, the extractor returns the empty
    keyword string for every document and the empty vocabulary, and the
    classifier runs on that result. *)
Theorem vectorizer_failure_recovered (argsort : list Q -> list nat)
    (fit_transform : nat -> list string -> option (list (list Q) * list string))
    (df : DataFrame) (max_features : nat) :
  fit_transform max_features (map (fun r => preprocess_text (review r)) (rows df)) = None ->
  extract_keywords_tfidf argsort fit_transform df max_features
  = (repeat "" (Pandas.len df), [])
  /\ identify_themes_manual
       (fst (extract_keywords_tfidf argsort fit_transform df max_features)) df
     = repeat "" (Pandas.len df).
Proof.
  intros Hfail.
  assert (E : extract_keywords_tfidf argsort fit_transform df max_features
              = (repeat "" (Pandas.len df), [])).
  { unfold extract_keywords_tfidf, try_extract. rewrite Hfail. simpl.
    rewrite map_const_repeat. unfold Pandas.len. now rewrite length_map. }
  split; [exact E|]. rewrite E. simpl.
  apply identify_themes_manual_blank.
Qed.

Lemma vectorizer_failure_recovered_witness :
  Samples.count_vectorizer 50
    (map (fun r => preprocess_text (review r)) (rows Samples.degenerate_reviews)) = None
  /\ extract_keywords_tfidf Samples.insertion_argsort Samples.count_vectorizer
       Samples.degenerate_reviews 50
     = ([""; ""], []).
Proof.
  split; [reflexivity|].
  exact (proj1 (vectorizer_failure_recovered Samples.insertion_argsort
                  Samples.count_vectorizer Samples.degenerate_reviews 50 eq_refl)).
Defined.

(** Reading the keyword list at the labels of the selected rows gives
    the keyword strings of those rows, when the labels count the rows
    from [length pre] on. *)
Lemma keywords_at_labels (p : Review -> bool) :
  forall (rws : list Review) (kws pre : list string),
    length kws = length rws ->
    mapM (nth_error (pre ++ kws))
         (map fst (filter (fun ir => p (snd ir))
                          (combine (seq (length pre) (length rws)) rws)))
    = Some (map snd (filter (fun rk => p (fst rk)) (combine rws kws))).
Proof.
  induction rws as [|r rws IH]; intros kws pre Hlen.
  - reflexivity.
  - destruct kws as [|k kws]; [discriminate|]. simpl in Hlen.
    assert (Hrest := IH kws (pre ++ [k]) ltac:(lia)).
    rewrite <- app_assoc, length_app, Nat.add_1_r in Hrest. simpl in Hrest.
    simpl. destruct (p r); simpl.
    + rewrite nth_error_app2, Nat.sub_diag by lia. simpl.
      rewrite Hrest. reflexivity.
    + exact Hrest.
Qed.

Lemma filter_combine_map {X Y Z : Type} (p : X -> bool) (f : Y -> Z) :
  forall (xs : list X) (ys : list Y),
    map snd (filter (fun xz => p (fst xz)) (combine xs (map f ys)))
    = map f (map snd (filter (fun xy => p (fst xy)) (combine xs ys))).
Proof.
  induction xs as [|x xs IH]; intros [|y ys]; simpl; try reflexivity.
  destruct (p x); simpl; now rewrite IH.
Qed.

Lemma theme_of_tagged (p : Review -> bool) (q : string -> bool) :
  (forall r t, p {| review := review r; rating := rating r; bank := bank r;
                    sentiment_label := sentiment_label r; theme := t |}
               = q (bank r)) ->
  forall (rws : list Review) (themes : list string),
    map theme
        (filter p
           (map (fun rt =>
                   {| review := review (fst rt); rating := rating (fst rt);
                      bank := bank (fst rt);
                      sentiment_label := sentiment_label (fst rt);
                      theme := snd rt |})
                (combine rws themes)))
    = map snd (filter (fun rt => q (bank (fst rt))) (combine rws themes)).
Proof.
  intros Hp. induction rws as [|r rws IH]; intros [|t themes]; simpl; try reflexivity.
  rewrite Hp. destruct (q (bank r)); simpl; now rewrite IH.
Qed.

(** C9. On a frame with the default index and one keyword string per
    row, the per-bank classification gives each bank the themes the
    whole-corpus classification gave its rows; the classification is the
    same whatever frame it is handed, and each theme is a function of
    the taxonomy and the review's own keyword string. *)
Theorem per_bank_matches_global (df : DataFrame) (keywords_list : list string) :
  index df = seq 0 (Pandas.len df) ->
  length keywords_list = Pandas.len df ->
  exists tagged,
    set_theme df (identify_themes_manual keywords_list df) = Some tagged
    /\ identify_themes_by_bank df keywords_list
       = Some (map (fun b =>
                      (b, map theme
                            (rows (Pandas.select (fun r => String.eqb (bank r) b) tagged))))
                   (Pandas.unique (map bank (rows df))))
    /\ (forall other,
          identify_themes_manual keywords_list other
          = identify_themes_manual keywords_list df)
    /\ identify_themes_manual keywords_list df
       = map (assign_theme theme_patterns) keywords_list.
Proof.
  intros Hindex Hlen.
  assert (Hsize : (length (identify_themes_manual keywords_list df)
                   =? Pandas.len df)%nat = true).
  { rewrite identify_themes_manual_map, length_map, Hlen. apply Nat.eqb_refl. }
  eexists. split; [unfold set_theme; rewrite Hsize; reflexivity|]. split; [|split].
  - unfold identify_themes_by_bank.
    apply mapM_total. apply Forall_forall. intros b _.
    unfold Pandas.select at 1. simpl index. rewrite Hindex.
    pose proof (keywords_at_labels (fun r => String.eqb (bank r) b)
                  (rows df) keywords_list [] Hlen) as Hk.
    simpl in Hk. unfold Pandas.len. rewrite Hk. simpl bind.
    do 2 f_equal.
    rewrite !identify_themes_manual_map.
    unfold Pandas.select. simpl rows.
    rewrite (theme_of_tagged _ (fun name => String.eqb name b)) by reflexivity.
    symmetry.
    apply (filter_combine_map (fun r => String.eqb (bank r) b)
             (assign_theme theme_patterns)).
  - intros other. now rewrite !identify_themes_manual_map.
  - apply identify_themes_manual_map.
Qed.

Lemma per_bank_matches_global_witness :
  index Samples.blank_review = seq 0 (Pandas.len Samples.blank_review)
  /\ length ["failed, login"; ""; "failed, login"] = Pandas.len Samples.blank_review
  /\ identify_themes_by_bank Samples.blank_review ["failed, login"; ""; "failed, login"]
     = Some [("CBE", ["Account Access Issues"; ""; "Account Access Issues"])].
Proof.
  split; [reflexivity|]. split; [reflexivity|].
  destruct (per_bank_matches_global Samples.blank_review
              ["failed, login"; ""; "failed, login"]
              eq_refl eq_refl) as (tagged & Hset & Hbanks & _).
  rewrite Hbanks. injection Hset as <-. reflexivity.
Defined.

(** A frame whose index labels are not the positions of its rows: the
    per-bank classification reads the keywords of other rows, and the
    themes it gives a bank are not those the whole-corpus classification
    gave the bank's reviews. *)
Lemma per_bank_counterexample :
  let keywords_list := ["login"; "help"; "transfer"] in
  length keywords_list = Pandas.len Samples.reindexed
  /\ exists tagged,
       set_theme Samples.reindexed
         (identify_themes_manual keywords_list Samples.reindexed) = Some tagged
       /\ map theme (rows (Pandas.select (fun r => String.eqb (bank r) "CBE") tagged))
          = ["Account Access Issues"; "Customer Support"]
       /\ identify_themes_by_bank Samples.reindexed keywords_list
          = Some [("CBE", ["Transaction Performance"; "Account Access Issues"]);
                  ("BOA", ["Customer Support"])]
       /\ identify_themes_by_bank Samples.reindexed keywords_list
          <> Some (map (fun b =>
                          (b, map theme
                                (rows (Pandas.select
                                         (fun r => String.eqb (bank r) b) tagged))))
                       (Pandas.unique (map bank (rows Samples.reindexed)))).
Proof.
  split; [reflexivity|]. eexists. split; [reflexivity|].
  split; [reflexivity|]. split; [reflexivity|].
  vm_compute. discriminate.
Qed.

End Classifier.

(** ** The tally *)

Section Tally.

Import Pandas Spec.

Lemma unique_In (x : string) (l : list string) : In x (unique l) <-> In x l.
Proof.
  induction l as [|a l IH]; simpl; [tauto|].
  rewrite filter_In, IH. destruct (String.eqb_spec x a) as [->|Hne]; simpl.
  - tauto.
  - split; [tauto|]. intros [->|H]; [congruence|]. right. auto.
Qed.

Lemma unique_NoDup (l : list string) : NoDup (unique l).
Proof.
  induction l as [|a l IH]; simpl; constructor.
  - rewrite filter_In, String.eqb_refl. simpl. intros [_ H]. discriminate.
  - now apply NoDup_filter.
Qed.

Lemma insert_count_perm (x : string * nat) (l : list (string * nat)) :
  Permutation (insert_count x l) (x :: l).
Proof.
  induction l as [|y l IH]; simpl; [reflexivity|].
  destruct (snd y <=? snd x)%nat; [reflexivity|].
  rewrite IH. apply perm_swap.
Qed.

Lemma sort_count_perm (l : list (string * nat)) :
  Permutation (fold_right insert_count [] l) l.
Proof.
  induction l as [|x l IH]; simpl; [reflexivity|].
  rewrite insert_count_perm. now constructor.
Qed.

Lemma insert_count_descending (x : string * nat) (l : list (string * nat)) :
  descending l -> descending (insert_count x l).
Proof.
  unfold descending. induction 1 as [|y l Hl IH Hy]; simpl.
  - repeat constructor.
  - destruct (Nat.leb_spec (snd y) (snd x)) as [Hle|Hlt].
    + constructor; [now constructor|].
      constructor; [exact Hle|].
      eapply Forall_impl; [|exact Hy]. simpl. intros b Hb. lia.
    + constructor; [exact IH|].
      apply (Permutation_Forall (Permutation_sym (insert_count_perm x l))).
      constructor; [lia | exact Hy].
Qed.

Lemma value_counts_perm (l : list string) :
  Permutation (value_counts l) (map (fun k => (k, occurrences k l)) (unique l)).
Proof. apply sort_count_perm. Qed.

Lemma value_counts_descending (l : list string) : descending (value_counts l).
Proof.
  unfold value_counts.
  induction (map (fun k => (k, occurrences k l)) (unique l)) as [|x r IH]; simpl.
  - constructor.
  - now apply insert_count_descending.
Qed.

Lemma value_counts_keys (l : list string) : NoDup (map fst (value_counts l)).
Proof.
  apply (Permutation_NoDup
           (Permutation_map fst (Permutation_sym (value_counts_perm l)))).
  rewrite map_map. simpl. rewrite map_id. apply unique_NoDup.
Qed.

Lemma value_counts_In (l : list string) (k : string) (c : nat) :
  In (k, c) (value_counts l) <-> In k l /\ c = occurrences k l.
Proof.
  split.
  - intros H. apply (Permutation_in _ (value_counts_perm l)) in H.
    apply in_map_iff in H. destruct H as (k' & E & Hk').
    inversion E; subst. split; [now apply unique_In | reflexivity].
  - intros [Hk ->]. apply (Permutation_in _ (Permutation_sym (value_counts_perm l))).
    apply in_map_iff. exists k. split; [reflexivity | now apply unique_In].
Qed.

Lemma value_counts_positive (l : list string) (k : string) (c : nat) :
  In (k, c) (value_counts l) -> 1 <= c.
Proof.
  intros H. apply value_counts_In in H. destruct H as [Hk ->].
  unfold occurrences. now apply count_occ_In.
Qed.

Lemma head_incl {A : Type} (n : nat) (l : list A) (x : A) :
  In x (head n l) -> In x l.
Proof.
  unfold head. intros H. rewrite <- (firstn_skipn n l). apply in_or_app. now left.
Qed.

Lemma head_keys {A B : Type} (n : nat) (l : list (A * B)) :
  NoDup (map fst l) -> NoDup (map fst (head n l)).
Proof.
  unfold head. intros H. rewrite <- (firstn_skipn n l), map_app in H.
  now apply NoDup_app_remove_r in H.
Qed.

Lemma head_length {A : Type} (n : nat) (l : list A) : length (head n l) <= n.
Proof. apply firstn_le_length. Qed.

End Tally.

(** ** The insight ranker *)

Section Ranker.

Import Pandas Insights Spec.

Lemma seed_loop_closed (segment : DataFrame) (top : list (string * nat))
    (acc : list Insight) :
  seed_loop segment top acc
  = acc ++ map (entry segment) (filter (fun tc => reportable (fst tc)) top).
Proof. apply fold_left_keep. Qed.

Lemma any_theme_iff (t : string) (l : list Insight) :
  any_theme t l = true <-> In t (map i_theme l).
Proof.
  unfold any_theme. rewrite existsb_exists, in_map_iff.
  split; intros (p & H1 & H2); exists p.
  - apply String.eqb_eq in H2. tauto.
  - split; [tauto|]. apply String.eqb_eq. tauto.
Qed.

Lemma any_theme_app (t : string) (l : list Insight) (p : Insight) :
  i_theme p <> t -> any_theme t (l ++ [p]) = any_theme t l.
Proof.
  intros Hne. unfold any_theme. rewrite existsb_app. simpl.
  apply String.eqb_neq in Hne. rewrite Hne. now rewrite !orb_false_r.
Qed.

(** The rating loop tests each theme against the growing list; the keys
    of a tally being distinct, that is the list the loop started from. *)
Lemma append_loop_closed (segment : DataFrame) :
  forall (top : list (string * nat)) (acc : list Insight),
    NoDup (map fst top) ->
    append_loop segment top acc
    = acc ++ map (entry segment)
               (filter (fun tc => reportable (fst tc) && negb (any_theme (fst tc) acc))
                       top).
Proof.
  unfold append_loop.
  induction top as [|tc top IH]; intros acc Hnd; simpl.
  - now rewrite app_nil_r.
  - inversion Hnd as [|? ? Hnotin Hnd']; subst.
    destruct (reportable (fst tc)); simpl; [|now apply IH].
    destruct (any_theme (fst tc) acc); simpl; [now apply IH|].
    rewrite IH by assumption. rewrite <- app_assoc. simpl. do 2 f_equal.
    f_equal. apply filter_ext_in. intros tc' Hin.
    rewrite any_theme_app; [reflexivity|].
    simpl. intros E. apply Hnotin. rewrite E. now apply in_map.
Qed.

Lemma top_themes_keys (n : nat) (segment : DataFrame) :
  NoDup (map fst (top_themes n segment)).
Proof. apply head_keys, value_counts_keys. Qed.

Lemma top_themes_empty (n : nat) (segment : DataFrame) :
  (0 <? len segment)%nat = false -> top_themes n segment = [].
Proof.
  unfold top_themes, len. destruct (rows segment); simpl; [|discriminate].
  intros _. now destruct n.
Qed.

Lemma top_themes_In (n : nat) (segment : DataFrame) (k : string) (c : nat) :
  In (k, c) (top_themes n segment) ->
  In k (themes_of segment) /\ c = occurrences k (themes_of segment).
Proof. intros H. apply head_incl in H. now apply value_counts_In in H. Qed.

Lemma select_columns (p : Review -> bool) (name : string) (df : DataFrame) :
  has_column name (select p df) = has_column name df.
Proof. reflexivity. Qed.

(** The sentiment block adds the seeds of the two polarities. *)
Lemma by_sentiment_closed (bank_df : DataFrame) (insights : InsightSet) :
  drivers (by_sentiment bank_df insights)
  = drivers insights
    ++ (if sentiment_columns bank_df then seed_of (positive_reviews bank_df) else [])
  /\ pain_points (by_sentiment bank_df insights)
     = pain_points insights
       ++ (if sentiment_columns bank_df then seed_of (negative_reviews bank_df) else []).
Proof.
  unfold by_sentiment, sentiment_columns, seed_of.
  destruct (has_column "sentiment_label" bank_df && has_column "theme" bank_df);
    [|now rewrite !app_nil_r].
  destruct (0 <? len (positive_reviews bank_df))%nat eqn:Hp;
    destruct (0 <? len (negative_reviews bank_df))%nat eqn:Hn; simpl;
    rewrite ?seed_loop_closed, ?(top_themes_empty 3 _ Hp), ?(top_themes_empty 3 _ Hn);
    simpl; rewrite ?app_nil_r; split; reflexivity.
Qed.

(** The rating block adds what the two rating passes find new. *)
Lemma by_rating_closed (bank_df : DataFrame) (insights : InsightSet) :
  drivers (by_rating bank_df insights)
  = drivers insights
    ++ (if rating_columns bank_df
        then extra_of (high_ratings bank_df) (drivers insights) else [])
  /\ pain_points (by_rating bank_df insights)
     = pain_points insights
       ++ (if rating_columns bank_df
           then extra_of (low_ratings bank_df) (pain_points insights) else []).
Proof.
  unfold by_rating, rating_columns, extra_of.
  destruct (has_column "rating" bank_df);
    [|simpl; rewrite !app_nil_r; split; reflexivity].
  change (has_column "theme" (low_ratings bank_df)) with (has_column "theme" bank_df).
  change (has_column "theme" (high_ratings bank_df)) with (has_column "theme" bank_df).
  simpl andb.
  destruct (has_column "theme" bank_df); rewrite ?andb_false_r, ?andb_true_r;
    [|simpl; rewrite !app_nil_r; split; reflexivity].
  destruct (0 <? len (low_ratings bank_df))%nat eqn:Hl;
    destruct (0 <? len (high_ratings bank_df))%nat eqn:Hh; simpl;
    rewrite ?append_loop_closed by apply top_themes_keys;
    rewrite ?(top_themes_empty 2 _ Hl), ?(top_themes_empty 2 _ Hh);
    simpl; rewrite ?app_nil_r.
  all: split; reflexivity.
Qed.

(** The insight set is the seed lists followed by the rating passes. *)
Lemma insights_closed (df : DataFrame) (bank_name : option string) :
  let bank_df := bank_frame df bank_name in
  drivers (identify_drivers_and_pain_points df bank_name)
  = drivers (seeded df bank_name)
    ++ (if rating_columns bank_df
        then extra_of (high_ratings bank_df) (drivers (seeded df bank_name)) else [])
  /\ pain_points (identify_drivers_and_pain_points df bank_name)
     = pain_points (seeded df bank_name)
       ++ (if rating_columns bank_df
           then extra_of (low_ratings bank_df) (pain_points (seeded df bank_name))
           else []).
Proof. apply by_rating_closed. Qed.

Lemma seeded_closed (df : DataFrame) (bank_name : option string) :
  let bank_df := bank_frame df bank_name in
  drivers (seeded df bank_name)
  = (if sentiment_columns bank_df then seed_of (positive_reviews bank_df) else [])
  /\ pain_points (seeded df bank_name)
     = (if sentiment_columns bank_df then seed_of (negative_reviews bank_df) else []).
Proof. apply (by_sentiment_closed (bank_frame df bank_name) no_insights). Qed.

Lemma filter_length_bound {A : Type} (p : A -> bool) (l : list A) :
  length (filter p l) <= length l.
Proof.
  induction l as [|a l IH]; simpl; [lia|]. destruct (p a); simpl; lia.
Qed.

Section Keys.

Context {A B : Type} (key : A -> B).

(** Distinct keys stay distinct under a filter. *)
Lemma distinct_keys_filter (keep : A -> bool) :
  forall l, NoDup (map key l) -> NoDup (map key (filter keep l)).
Proof.
  intros l; induction l as [|a l IH]; simpl; intros H; [constructor|].
  inversion H as [|? ? Hnotin Hnd]; subst.
  destruct (keep a); simpl; [|now apply IH].
  constructor; [|now apply IH].
  intros Hin. apply Hnotin. apply in_map_iff in Hin.
  destruct Hin as (x & Hx & Hf). apply filter_In in Hf.
  apply in_map_iff. exists x. tauto.
Qed.

(** Two entries of one key are one entry. *)
Lemma distinct_keys_same (l : list A) (a b : A) :
  NoDup (map key l) -> In a l -> In b l -> key a = key b -> a = b.
Proof.
  induction l as [|x l IH]; simpl; intros Hnd Ha Hb E; [tauto|].
  inversion Hnd as [|? ? Hnotin Hnd']; subst.
  destruct Ha as [->|Ha], Hb as [->|Hb]; auto.
  - exfalso. apply Hnotin. rewrite E. now apply in_map.
  - exfalso. apply Hnotin. rewrite <- E. now apply in_map.
Qed.

End Keys.

Lemma entry_themes (segment : DataFrame) (l : list (string * nat)) :
  map i_theme (map (entry segment) l) = map fst l.
Proof. rewrite map_map. reflexivity. Qed.

Lemma pct_share (count : nat) (segment : DataFrame) :
  (pct count segment
   == 100 * inject_Z (Z.of_nat count) / inject_Z (Z.of_nat (len segment)))%Q.
Proof. unfold pct, Qdiv. ring. Qed.

Lemma entry_from_segment (n : nat) (segment : DataFrame) (tc : string * nat) :
  In tc (top_themes n segment) -> from_segment segment (entry segment tc).
Proof.
  destruct tc as [k c]. intros H. apply top_themes_In in H. destruct H as [Hk Hc].
  unfold from_segment. simpl. repeat split; try assumption.
  - unfold themes_of in Hk. unfold len. destruct (rows segment); simpl in *; [tauto|lia].
  - apply pct_share.
Qed.

Lemma seed_of_from (segment : DataFrame) :
  Forall (from_segment segment) (seed_of segment).
Proof.
  unfold seed_of. apply Forall_map, Forall_forall. intros tc H.
  apply filter_In in H. now apply (entry_from_segment 3).
Qed.

Lemma extra_of_from (segment : DataFrame) (present : list Insight) :
  Forall (from_segment segment) (extra_of segment present).
Proof.
  unfold extra_of. apply Forall_map, Forall_forall. intros tc H.
  apply filter_In in H. now apply (entry_from_segment 2).
Qed.

Lemma seed_of_reportable (segment : DataFrame) :
  Forall (fun p => reportable (i_theme p) = true) (seed_of segment).
Proof.
  unfold seed_of. apply Forall_map, Forall_forall. intros tc H.
  apply filter_In in H. tauto.
Qed.

Lemma seed_of_keys (segment : DataFrame) : NoDup (map i_theme (seed_of segment)).
Proof.
  unfold seed_of. rewrite entry_themes.
  apply distinct_keys_filter, top_themes_keys.
Qed.

Lemma seed_of_length (segment : DataFrame) : length (seed_of segment) <= 3.
Proof.
  unfold seed_of, top_themes. rewrite length_map.
  etransitivity; [apply filter_length_bound | apply head_length].
Qed.

Lemma extra_of_length (segment : DataFrame) (present : list Insight) :
  length (extra_of segment present) <= 2.
Proof.
  unfold extra_of, top_themes. rewrite length_map.
  etransitivity; [apply filter_length_bound | apply head_length].
Qed.

(** A rating pass keeps the themes already present once. *)
Lemma extra_of_keys (segment : DataFrame) (present : list Insight) :
  NoDup (map i_theme present) ->
  NoDup (map i_theme (present ++ extra_of segment present)).
Proof.
  intros Hnd. rewrite map_app. apply NoDup_app; [assumption| |].
  - unfold extra_of. rewrite entry_themes.
    apply distinct_keys_filter, top_themes_keys.
  - intros t Hin Hex. unfold extra_of in Hex. rewrite entry_themes in Hex.
    apply in_map_iff in Hex. destruct Hex as (tc & <- & Htc).
    apply filter_In in Htc. destruct Htc as [_ Htc].
    apply andb_prop in Htc. destruct Htc as [_ Hfresh].
    apply any_theme_iff in Hin. rewrite Hin in Hfresh. discriminate.
Qed.

Lemma seeded_keys (df : DataFrame) (bank_name : option string) :
  NoDup (map i_theme (drivers (seeded df bank_name)))
  /\ NoDup (map i_theme (pain_points (seeded df bank_name))).
Proof.
  destruct (seeded_closed df bank_name) as [-> ->].
  destruct (sentiment_columns _); simpl;
    split; try apply seed_of_keys; constructor.
Qed.

Lemma insights_keys (df : DataFrame) (bank_name : option string) :
  NoDup (map i_theme (drivers (identify_drivers_and_pain_points df bank_name)))
  /\ NoDup (map i_theme (pain_points (identify_drivers_and_pain_points df bank_name))).
Proof.
  destruct (insights_closed df bank_name) as [-> ->].
  destruct (seeded_keys df bank_name) as [Hd Hp].
  destruct (rating_columns _); rewrite ?app_nil_r;
    split; try assumption; now apply extra_of_keys.
Qed.

Lemma reportable_iff (t : string) :
  reportable t = true <-> t <> "" /\ t <> "Other".
Proof.
  unfold reportable. rewrite andb_true_iff, negb_true_iff, truthy_true.
  now rewrite String.eqb_neq.
Qed.

(** C2. The seed list of pain points holds the three most frequent
    themes of the bank's negative reviews, counted over all theme
    values, from which "" and Other are then dropped; the seed list of
    drivers holds those of the positive reviews likewise. Neither "" nor
    Other is in a seed list. *)
Theorem seed_lists (df : DataFrame) (bank_name : option string) :
  let bank_df := bank_frame df bank_name in
  let top3 segment := head 3 (value_counts (themes_of segment)) in
  let kept segment :=
    map (entry segment) (filter (fun tc => reportable (fst tc)) (top3 segment)) in
  pain_points (seeded df bank_name)
  = (if sentiment_columns bank_df then kept (negative_reviews bank_df) else [])
  /\ drivers (seeded df bank_name)
     = (if sentiment_columns bank_df then kept (positive_reviews bank_df) else [])
  /\ (forall segment,
        descending (value_counts (themes_of segment))
        /\ NoDup (map fst (value_counts (themes_of segment)))
        /\ forall k c, In (k, c) (value_counts (themes_of segment))
                       <-> In k (themes_of segment)
                           /\ c = occurrences k (themes_of segment))
  /\ Forall (fun p => i_theme p <> "" /\ i_theme p <> "Other")
            (pain_points (seeded df bank_name) ++ drivers (seeded df bank_name)).
Proof.
  intros bank_df top3 kept.
  destruct (seeded_closed df bank_name) as [Hd Hp]. fold bank_df in Hd, Hp.
  split; [exact Hp|]. split; [exact Hd|]. split.
  - intros segment. split; [apply value_counts_descending|].
    split; [apply value_counts_keys|]. intros k c. apply value_counts_In.
  - rewrite Hd, Hp. apply Forall_app.
    destruct (sentiment_columns bank_df); split; try constructor;
      (eapply Forall_impl; [|apply seed_of_reportable]);
      intros p Hp'; now apply reportable_iff.
Qed.

(** The seed list of the specification, three themes long, against the
    two the code keeps once Other has taken the first of three places. *)
Lemma seed_lists_counterexample :
  pain_points (seeded Samples.crowded (Some "CBE"))
  <> top3_excluding (negative_reviews (bank_frame Samples.crowded (Some "CBE"))).
Proof.
  intros H. apply (f_equal (map i_theme)) in H. vm_compute in H. discriminate.
Qed.

(** The parts of the two lists, each with the segment it is drawn from
    and its length bound. *)
Lemma segment_parts (df : DataFrame) (bank_name : option string) :
  let bank_df := bank_frame df bank_name in
  let insights := identify_drivers_and_pain_points df bank_name in
  exists low_extra high_extra,
    pain_points insights = pain_points (seeded df bank_name) ++ low_extra
    /\ drivers insights = drivers (seeded df bank_name) ++ high_extra
    /\ length low_extra <= 2
    /\ length high_extra <= 2
    /\ Forall (from_segment (negative_reviews bank_df)) (pain_points (seeded df bank_name))
    /\ Forall (from_segment (low_ratings bank_df)) low_extra
    /\ Forall (from_segment (positive_reviews bank_df)) (drivers (seeded df bank_name))
    /\ Forall (from_segment (high_ratings bank_df)) high_extra.
Proof.
  intros bank_df insights.
  destruct (insights_closed df bank_name) as [Hd Hp]. fold bank_df insights in Hd, Hp.
  do 2 eexists. split; [exact Hp|]. split; [exact Hd|].
  destruct (seeded_closed df bank_name) as [-> ->]. fold bank_df.
  destruct (sentiment_columns bank_df), (rating_columns bank_df);
    repeat split;
    try apply seed_of_from; try apply extra_of_from;
    try apply extra_of_length; try constructor; simpl; lia.
Qed.


(** C4. No theme occurs twice among the drivers nor twice among the pain
    points; the seed lists open the final lists unchanged, so a theme
    the rating pass finds again keeps the entry of the sentiment pass;
    and one theme may stand in both lists. *)
Theorem no_duplicate_themes (df : DataFrame) (bank_name : option string) :
  let insights := identify_drivers_and_pain_points df bank_name in
  NoDup (map i_theme (drivers insights))
  /\ NoDup (map i_theme (pain_points insights))
  /\ (exists extra, drivers insights = drivers (seeded df bank_name) ++ extra)
  /\ (exists extra, pain_points insights = pain_points (seeded df bank_name) ++ extra)
  /\ (forall p s, In p (drivers insights) -> In s (drivers (seeded df bank_name)) ->
                  i_theme p = i_theme s -> p = s)
  /\ (forall p s, In p (pain_points insights) -> In s (pain_points (seeded df bank_name)) ->
                  i_theme p = i_theme s -> p = s)
  /\ (exists shared both,
        both = identify_drivers_and_pain_points Samples.divided (Some "BOA")
        /\ In shared (map i_theme (drivers both))
        /\ In shared (map i_theme (pain_points both))).
Proof.
  intros insights.
  destruct (insights_keys df bank_name) as [Kd Kp]. fold insights in Kd, Kp.
  destruct (insights_closed df bank_name) as [Hd Hp]. fold insights in Hd, Hp.
  split; [exact Kd|]. split; [exact Kp|].
  split; [eexists; exact Hd|]. split; [eexists; exact Hp|].
  split; [|split].
  - intros p s Hin Hs E. apply (distinct_keys_same i_theme (drivers insights)); auto.
    rewrite Hd. apply in_or_app. now left.
  - intros p s Hin Hs E. apply (distinct_keys_same i_theme (pain_points insights)); auto.
    rewrite Hp. apply in_or_app. now left.
  - exists "Transaction Performance". eexists. split; [reflexivity|].
    split; vm_compute; tauto.
Qed.

Lemma no_duplicate_themes_witness :
  let final := pain_points (identify_drivers_and_pain_points Samples.crowded (Some "CBE")) in
  let kept := {| i_theme := "Account Access Issues"; i_count := 3;
                 i_percentage := pct 3 (negative_reviews Samples.crowded) |} in
  In kept (pain_points (seeded Samples.crowded (Some "CBE")))
  /\ In ("Account Access Issues", 3) (top_themes 2 (low_ratings Samples.crowded))
  /\ nth 0 final kept = kept.
Proof.
  intros final kept.
  assert (Hseed : In kept (pain_points (seeded Samples.crowded (Some "CBE"))))
    by (vm_compute; tauto).
  split; [exact Hseed|]. split; [vm_compute; tauto|].
  destruct (no_duplicate_themes Samples.crowded (Some "CBE"))
    as (_ & _ & _ & _ & _ & Hfirst & _).
  apply Hfirst; [vm_compute; tauto | exact Hseed | reflexivity].
Defined.

Lemma from_segment_positive (segment : DataFrame) (p : Insight) :
  from_segment segment p -> 1 <= i_count p /\ (0 < i_percentage p)%Q.
Proof.
  intros (Hlen & Hin & Hcount & Hpct).
  assert (Hc : 1 <= i_count p).
  { rewrite Hcount. unfold occurrences. now apply count_occ_In. }
  split; [exact Hc|]. rewrite Hpct.
  apply Qmult_lt_0_compat; [apply Qmult_lt_0_compat; [reflexivity|]|].
  - unfold Qlt. simpl. lia.
  - apply Qinv_lt_0_compat. unfold Qlt. simpl. lia.
Qed.

(** C10. Each list holds at most five entries, at most three of them
    seeds and at most two appended by the rating pass, and every entry
    has a count of at least one and a percentage above zero. *)
Theorem bounded_and_positive (df : DataFrame) (bank_name : option string) :
  let insights := identify_drivers_and_pain_points df bank_name in
  length (drivers insights) <= 5
  /\ length (pain_points insights) <= 5
  /\ length (drivers (seeded df bank_name)) <= 3
  /\ length (pain_points (seeded df bank_name)) <= 3
  /\ length (drivers insights) <= length (drivers (seeded df bank_name)) + 2
  /\ length (pain_points insights) <= length (pain_points (seeded df bank_name)) + 2
  /\ Forall (fun p => 1 <= i_count p /\ (0 < i_percentage p)%Q)
            (drivers insights ++ pain_points insights).
Proof.
  intros insights.
  destruct (segment_parts df bank_name)
    as (low_extra & high_extra & Hp & Hd & Hl & Hh & Fn & Fl & Fp & Fh).
  fold insights in Hp, Hd.
  assert (Sd : length (drivers (seeded df bank_name)) <= 3).
  { destruct (seeded_closed df bank_name) as [-> _].
    destruct (sentiment_columns _); [apply seed_of_length | simpl; lia]. }
  assert (Sp : length (pain_points (seeded df bank_name)) <= 3).
  { destruct (seeded_closed df bank_name) as [_ ->].
    destruct (sentiment_columns _); [apply seed_of_length | simpl; lia]. }
  rewrite Hp, Hd, !length_app.
  repeat split; try lia.
  rewrite !Forall_app. repeat split;
    (eapply Forall_impl; [|eassumption]); intros p; apply from_segment_positive.
Qed.

End Ranker.

(** ** The keyword selection *)

Section Sorted.

Context {A : Type} (R : A -> A -> Prop).

Lemma sorted_app (l1 l2 : list A) :
  StronglySorted R l1 -> StronglySorted R l2 ->
  (forall a b, In a l1 -> In b l2 -> R a b) ->
  StronglySorted R (l1 ++ l2).
Proof.
  induction 1 as [|a l1 H1 IH Ha]; intros H2 Hcross; simpl; [assumption|].
  constructor.
  - apply IH; [assumption|]. intros x y Hx Hy. apply Hcross; [now right | assumption].
  - apply Forall_app. split; [assumption|].
    apply Forall_forall. intros y Hy. apply Hcross; [now left | assumption].
Qed.

Lemma sorted_app_inv (l1 l2 : list A) :
  StronglySorted R (l1 ++ l2) ->
  StronglySorted R l1 /\ StronglySorted R l2
  /\ (forall a b, In a l1 -> In b l2 -> R a b).
Proof.
  induction l1 as [|a l1 IH]; simpl; intros H.
  - repeat split; [constructor | assumption | intros ? ? []].
  - apply StronglySorted_inv in H. destruct H as [H Ha].
    destruct (IH H) as (S1 & S2 & Hcross).
    apply Forall_app in Ha. destruct Ha as [Ha1 Ha2].
    repeat split; [now constructor | assumption |].
    intros x y [<-|Hx] Hy; [|now apply Hcross].
    rewrite Forall_forall in Ha2. now apply Ha2.
Qed.

Lemma sorted_filter (p : A -> bool) (l : list A) :
  StronglySorted R l -> StronglySorted R (filter p l).
Proof.
  induction 1 as [|a l H IH Ha]; simpl; [constructor|].
  destruct (p a); [|assumption]. constructor; [assumption|].
  apply Forall_forall. intros x Hx. apply filter_In in Hx.
  rewrite Forall_forall in Ha. now apply Ha.
Qed.

Lemma sorted_firstn (n : nat) (l : list A) :
  StronglySorted R l -> StronglySorted R (firstn n l).
Proof.
  intros H. rewrite <- (firstn_skipn n l) in H. now apply sorted_app_inv in H.
Qed.

Lemma sorted_skipn (n : nat) (l : list A) :
  StronglySorted R l -> StronglySorted R (skipn n l).
Proof.
  intros H. rewrite <- (firstn_skipn n l) in H. now apply sorted_app_inv in H.
Qed.

End Sorted.

Lemma sorted_rev {A : Type} (R : A -> A -> Prop) (l : list A) :
  StronglySorted R l -> StronglySorted (fun a b => R b a) (rev l).
Proof.
  induction 1 as [|a l H IH Ha]; simpl; [constructor|].
  apply sorted_app; [assumption | repeat constructor |].
  intros x y Hx [<-|[]]. apply in_rev in Hx.
  rewrite Forall_forall in Ha. now apply Ha.
Qed.

Section Insertion.

Import Numpy Spec Samples.

Variable scores : list Q.

Lemma insert_index_perm (i : nat) (l : list nat) :
  Permutation (insert_index scores i l) (i :: l).
Proof.
  induction l as [|j l IH]; simpl; [reflexivity|].
  destruct (Qle_bool _ _); [reflexivity|].
  rewrite IH. apply perm_swap.
Qed.

Lemma insert_index_sorted (i : nat) (l : list nat) :
  StronglySorted (fun a b => (score_at scores a <= score_at scores b)%Q) l ->
  StronglySorted (fun a b => (score_at scores a <= score_at scores b)%Q)
                 (insert_index scores i l).
Proof.
  induction 1 as [|j l Hl IH Hj]; simpl.
  - repeat constructor.
  - destruct (Qle_bool (score_at scores i) (score_at scores j)) eqn:E.
    + apply Qle_bool_iff in E.
      constructor; [now constructor|].
      constructor; [assumption|].
      eapply Forall_impl; [|exact Hj]. simpl. intros b Hb. lra.
    + assert (Hlt : (score_at scores j < score_at scores i)%Q).
      { apply Qnot_le_lt. intros H. apply Qle_bool_iff in H. congruence. }
      constructor; [exact IH|].
      apply (Permutation_Forall (Permutation_sym (insert_index_perm i l))).
      constructor; [lra | assumption].
Qed.

Lemma insertion_sorted (l : list nat) :
  StronglySorted (fun a b => (score_at scores a <= score_at scores b)%Q)
                 (fold_right (insert_index scores) [] l)
  /\ Permutation (fold_right (insert_index scores) [] l) l.
Proof.
  induction l as [|i l [IHs IHp]]; simpl.
  - split; constructor.
  - split; [now apply insert_index_sorted|].
    rewrite insert_index_perm. now constructor.
Qed.

End Insertion.

(** The insertion sort is an [argsort] as numpy promises one. *)
Lemma insertion_argsort_sorts : Spec.sorts Samples.insertion_argsort.
Proof.
  intros scores. unfold Samples.insertion_argsort.
  destruct (insertion_sorted scores (seq 0 (length scores))) as [Hs Hp].
  split; assumption.
Qed.

Section Selection.

Import Numpy Thematic Spec.

Variable argsort : list Q -> list nat.
Variable scores : list Q.

Lemma argsort_In (i : nat) :
  sorts argsort -> (In i (argsort scores) <-> i < length scores).
Proof.
  intros Hsorts. destruct (Hsorts scores) as [Hp _]. split; intros H.
  - apply (Permutation_in _ Hp), in_seq in H. lia.
  - apply (Permutation_in _ (Permutation_sym Hp)), in_seq. lia.
Qed.

Lemma argsort_length : sorts argsort -> length (argsort scores) = length scores.
Proof.
  intros Hsorts. destruct (Hsorts scores) as [Hp _].
  rewrite (Permutation_length Hp). apply length_seq.
Qed.

Lemma argsort_NoDup : sorts argsort -> NoDup (argsort scores).
Proof.
  intros Hsorts. destruct (Hsorts scores) as [Hp _].
  apply (Permutation_NoDup (Permutation_sym Hp)), seq_NoDup.
Qed.

Lemma positive_iff (q : Q) : positive q = true <-> (0 < q)%Q.
Proof.
  unfold positive. rewrite negb_true_iff. split.
  - intros E. apply Qnot_le_lt. intros H. apply Qle_bool_iff in H. congruence.
  - intros H. destruct (Qle_bool q 0) eqn:E; [|reflexivity].
    apply Qle_bool_iff in E. lra.
Qed.

Lemma top_indices_sorted :
  sorts argsort -> by_weight scores (top_indices argsort scores).
Proof.
  intros Hsorts. destruct (Hsorts scores) as [_ Hs].
  unfold by_weight, top_indices, last_n.
  apply (sorted_rev (fun a b => (score_at scores a <= score_at scores b)%Q)).
  now apply sorted_skipn.
Qed.

Lemma top_indices_length :
  sorts argsort -> length (top_indices argsort scores) = min 10 (length scores).
Proof.
  intros Hsorts. unfold top_indices, last_n.
  rewrite length_rev, length_skipn, (argsort_length Hsorts). lia.
Qed.

Lemma top_indices_In (i : nat) :
  sorts argsort -> In i (top_indices argsort scores) -> i < length scores.
Proof.
  intros Hsorts. unfold top_indices, last_n. intros H. apply in_rev in H.
  apply (argsort_In i Hsorts).
  rewrite <- (firstn_skipn (length (argsort scores) - 10)).
  apply in_or_app. now right.
Qed.

Lemma top_indices_NoDup : sorts argsort -> NoDup (top_indices argsort scores).
Proof.
  intros Hsorts. unfold top_indices, last_n. apply NoDup_rev.
  pose proof (argsort_NoDup Hsorts) as H.
  rewrite <- (firstn_skipn (length (argsort scores) - 10) (argsort scores)) in H.
  now apply NoDup_app_remove_l in H.
Qed.

(** An index outside the top ten weighs no more than any of the ten. *)
Lemma top_indices_complete (i j : nat) :
  sorts argsort ->
  In i (top_indices argsort scores) -> j < length scores ->
  ~ In j (top_indices argsort scores) ->
  (score_at scores j <= score_at scores i)%Q
  /\ length (top_indices argsort scores) = 10.
Proof.
  intros Hsorts Hi Hj Hout.
  destruct (Hsorts scores) as [_ Hs].
  pose proof (top_indices_length Hsorts) as Hlen.
  pose proof (argsort_length Hsorts) as Hn.
  apply (argsort_In j Hsorts) in Hj.
  unfold top_indices, last_n in *.
  set (cut := length (argsort scores) - 10) in *.
  rewrite <- (firstn_skipn cut (argsort scores)) in Hs, Hj.
  apply sorted_app_inv in Hs. destruct Hs as (_ & _ & Hcross).
  apply in_app_or in Hj. destruct Hj as [Hj|Hj].
  - split; [apply Hcross; [assumption | now apply in_rev]|].
    assert (0 < cut).
    { destruct cut; [|lia]. simpl in Hj. tauto. }
    unfold cut in *. lia.
  - exfalso. apply Hout. now apply in_rev in Hj.
Qed.

Lemma selected_sorted : sorts argsort -> by_weight scores (selected argsort scores).
Proof.
  intros Hsorts. apply sorted_firstn, sorted_filter, (top_indices_sorted Hsorts).
Qed.

Lemma selected_length : length (selected argsort scores) <= 5.
Proof. apply firstn_le_length. Qed.

Lemma selected_In (i : nat) :
  In i (selected argsort scores) ->
  In i (top_indices argsort scores) /\ (0 < score_at scores i)%Q.
Proof.
  unfold selected. intros H.
  assert (H' : In i (filter (fun idx => positive (score_at scores idx))
                            (top_indices argsort scores))).
  { rewrite <- (firstn_skipn 5). apply in_or_app. now left. }
  apply filter_In in H'. now rewrite positive_iff in H'.
Qed.

Lemma selected_NoDup : sorts argsort -> NoDup (selected argsort scores).
Proof.
  intros Hsorts. unfold selected.
  pose proof (NoDup_filter (fun idx => positive (score_at scores idx))
                (top_indices_NoDup Hsorts)) as H.
  rewrite <- (firstn_skipn 5) in H. now apply NoDup_app_remove_r in H.
Qed.

(** A term of positive weight that is not stored weighs no more than
    each of five stored ones. *)
Lemma selected_complete (j : nat) :
  sorts argsort ->
  j < length scores -> (0 < score_at scores j)%Q ->
  ~ In j (selected argsort scores) ->
  length (selected argsort scores) = 5
  /\ Forall (fun i => (score_at scores j <= score_at scores i)%Q)
            (selected argsort scores).
Proof.
  intros Hsorts Hj Hpos Hout. unfold selected in *.
  set (kept := filter (fun idx => positive (score_at scores idx))
                      (top_indices argsort scores)) in *.
  destruct (in_dec Nat.eq_dec j (top_indices argsort scores)) as [Hin|Hnot].
  - assert (Hk : In j kept) by (apply filter_In; now rewrite positive_iff).
    assert (Hs : by_weight scores kept)
      by apply sorted_filter, (top_indices_sorted Hsorts).
    unfold by_weight in Hs.
    rewrite <- (firstn_skipn 5 kept) in Hk, Hs.
    apply in_app_or in Hk. destruct Hk as [Hk|Hk]; [contradiction|].
    apply sorted_app_inv in Hs. destruct Hs as (_ & _ & Hcross). split.
    + rewrite length_firstn.
      assert (0 < length (skipn 5 kept))
        by (destruct (skipn 5 kept); simpl in *; [tauto|lia]).
      rewrite length_skipn in *. lia.
    + apply Forall_forall. intros i Hi. now apply Hcross.
  - assert (Hall : forall i, In i (top_indices argsort scores) ->
                             (score_at scores j <= score_at scores i)%Q)
      by (intros i Hi; now apply top_indices_complete).
    assert (Hten : length (top_indices argsort scores) = 10).
    { pose proof (top_indices_length Hsorts) as Hlen.
      destruct (top_indices argsort scores) as [|i rest] eqn:E.
      - cbn [length] in Hlen. lia.
      - rewrite <- E in *.
        apply (top_indices_complete i j); [assumption | rewrite E; now left
                                          | assumption..]. }
    assert (Hkept : kept = top_indices argsort scores).
    { unfold kept. apply forallb_filter_id. apply forallb_forall. intros i Hi.
      apply positive_iff. pose proof (Hall i Hi). lra. }
    rewrite Hkept. split.
    + rewrite length_firstn. lia.
    + apply Forall_forall. intros i Hi. apply Hall.
      rewrite <- (firstn_skipn 5). apply in_or_app. now left.
Qed.

(** With a name for every index the comprehension of line 73 returns,
    and its first five names are those of the stored indices. *)
Lemma keywords_of_selected (feature_names : list string) :
  sorts argsort ->
  length scores <= length feature_names ->
  exists keywords,
    keywords_of argsort scores feature_names = Some keywords
    /\ firstn 5 keywords
       = map (fun idx => nth idx feature_names "") (selected argsort scores).
Proof.
  intros Hsorts Hlen. unfold keywords_of, selected.
  set (kept := filter (fun idx => positive (score_at scores idx))
                      (top_indices argsort scores)).
  exists (map (fun idx => nth idx feature_names "") kept). split.
  - apply mapM_total. apply Forall_forall. intros idx Hidx.
    apply filter_In in Hidx. destruct Hidx as [Hidx _].
    apply (top_indices_In _ Hsorts) in Hidx.
    apply nth_error_nth'. lia.
  - now rewrite firstn_map.
Qed.

End Selection.

Section Extraction.

Import Numpy Thematic Spec.

Variable argsort : list Q -> list nat.
Variable tfidf_matrix : list (list Q).
Variable feature_names : list string.

(** The entry of a document whose text does not strip to nothing. *)
Lemma keywords_loop_entry :
  forall texts i keywords_list n text,
    keywords_loop argsort tfidf_matrix feature_names i texts = Some keywords_list ->
    nth_error texts n = Some text ->
    Text.truthy (Text.strip text) = true ->
    exists scores keywords,
      nth_error tfidf_matrix (i + n) = Some scores
      /\ keywords_of argsort scores feature_names = Some keywords
      /\ nth_error keywords_list n = Some (Text.join ", " (firstn 5 keywords)).
Proof.
  induction texts as [|t rest IH]; intros i kl n text Hloop Hn Hfull.
  - destruct n; discriminate.
  - simpl in Hloop.
    destruct (if Text.truthy (Text.strip t) then _ else _) as [e|] eqn:He;
      simpl in Hloop; [|discriminate].
    destruct (keywords_loop argsort tfidf_matrix feature_names (S i) rest)
      as [es|] eqn:Hes; simpl in Hloop; [|discriminate].
    inversion Hloop; subst kl. destruct n as [|n]; simpl in Hn.
    + inversion Hn; subst t. rewrite Hfull in He. rewrite Nat.add_0_r.
      destruct (nth_error tfidf_matrix i) as [scores|] eqn:Hrow; cbn [bind] in He;
        [|discriminate].
      destruct (keywords_of argsort scores feature_names) as [keywords|] eqn:Hkeys;
        cbn [bind] in He; [|discriminate].
      injection He as <-. exists scores, keywords. auto.
    + destruct (IH (S i) es n text Hes Hn Hfull) as (scores & keywords & H1 & H2 & H3).
      exists scores, keywords. rewrite Nat.add_succ_r. auto.
Qed.

(** The loop returns when the matrix has a row for every text and the
    vocabulary a name for every column. *)
Lemma keywords_loop_total :
  sorts argsort ->
  Forall (fun scores => length scores <= length feature_names) tfidf_matrix ->
  forall texts i,
    i + length texts <= length tfidf_matrix ->
    exists keywords_list,
      keywords_loop argsort tfidf_matrix feature_names i texts = Some keywords_list.
Proof.
  intros Hsorts Hshape. induction texts as [|t rest IH]; intros i Hrows;
    cbn [keywords_loop].
  - eexists. reflexivity.
  - simpl in Hrows. destruct (IH (S i) ltac:(lia)) as [es ->].
    destruct (Text.truthy (Text.strip t)); [|eexists; reflexivity].
    destruct (nth_error tfidf_matrix i) as [scores|] eqn:Hrow; cbn [bind].
    + assert (Hin : In scores tfidf_matrix) by (eapply nth_error_In; eassumption).
      rewrite Forall_forall in Hshape.
      destruct (keywords_of_selected argsort scores feature_names Hsorts
                  (Hshape _ Hin)) as (keywords & -> & _).
      eexists. reflexivity.
    + apply nth_error_None in Hrow. lia.
Qed.

End Extraction.

Section Extractor.

Import Numpy Thematic Spec.

Lemma normalized_not_blank (text : option string) :
  preprocess_text text <> "" ->
  Text.truthy (Text.strip (preprocess_text text)) = true.
Proof.
  destruct text as [s|]; simpl; [|congruence].
  rewrite strip_idempotent. apply truthy_true.
Qed.

(** C5. For a document whose normalized text is not empty the extractor
    takes the ten highest weights of its row, drops the terms of weight
    zero and stores the names of the first five left. The stored terms
    run from the largest weight down, no term twice, equal weights in
    the order numpy's sort leaves them; and a term of positive weight
    that is not stored weighs no more than each of five stored ones. *)
Theorem top_keywords_stored (argsort : list Q -> list nat)
    (fit_transform : nat -> list string -> option (list (list Q) * list string))
    (df : DataFrame) (max_features : nat)
    (tfidf_matrix : list (list Q)) (feature_names : list string)
    (i : nat) (r : Review) :
  sorts argsort ->
  fit_transform max_features (map (fun r => preprocess_text (review r)) (rows df))
  = Some (tfidf_matrix, feature_names) ->
  Pandas.len df <= length tfidf_matrix ->
  Forall (fun scores => length scores <= length feature_names) tfidf_matrix ->
  nth_error (rows df) i = Some r ->
  preprocess_text (review r) <> "" ->
  exists scores,
    nth_error tfidf_matrix i = Some scores
    /\ nth_error (fst (extract_keywords_tfidf argsort fit_transform df max_features)) i
       = Some (Text.join ", "
                 (map (fun idx => nth idx feature_names "") (selected argsort scores)))
    /\ length (top_indices argsort scores) = min 10 (length scores)
    /\ by_weight scores (top_indices argsort scores)
    /\ NoDup (top_indices argsort scores)
    /\ (forall a b, In a (top_indices argsort scores) -> b < length scores ->
                    ~ In b (top_indices argsort scores) ->
                    (score_at scores b <= score_at scores a)%Q)
    /\ by_weight scores (selected argsort scores)
    /\ NoDup (selected argsort scores)
    /\ Forall (fun a => In a (top_indices argsort scores)
                        /\ (0 < score_at scores a)%Q)
              (selected argsort scores)
    /\ length (selected argsort scores) <= 5
    /\ (forall b, b < length scores -> (0 < score_at scores b)%Q ->
                  ~ In b (selected argsort scores) ->
                  length (selected argsort scores) = 5
                  /\ Forall (fun a => (score_at scores b <= score_at scores a)%Q)
                            (selected argsort scores)).
Proof.
  intros Hsorts Hfit Hrows Hshape Hi Hfull.
  set (texts := map (fun r => preprocess_text (review r)) (rows df)) in *.
  assert (Ht : nth_error texts i = Some (preprocess_text (review r))).
  { unfold texts. now rewrite nth_error_map, Hi. }
  destruct (keywords_loop_total argsort tfidf_matrix feature_names Hsorts Hshape texts 0)
    as [keywords_list Hloop].
  { unfold texts. rewrite length_map. exact Hrows. }
  destruct (keywords_loop_entry argsort tfidf_matrix feature_names texts 0
              keywords_list i _ Hloop Ht (normalized_not_blank _ Hfull))
    as (scores & keywords & Hrow & Hkeys & Hentry).
  simpl in Hrow. exists scores. split; [exact Hrow|].
  assert (Hlen : length scores <= length feature_names).
  { rewrite Forall_forall in Hshape. apply Hshape.
    eapply nth_error_In; eassumption. }
  destruct (keywords_of_selected argsort scores feature_names Hsorts Hlen)
    as (keywords' & Hk' & Hfirst).
  rewrite Hkeys in Hk'. inversion Hk'; subst keywords'.
  split.
  { unfold extract_keywords_tfidf, try_extract. fold texts.
    rewrite Hfit. simpl. rewrite Hloop. simpl. now rewrite Hentry, Hfirst. }
  split; [now apply top_indices_length|].
  split; [now apply top_indices_sorted|].
  split; [now apply top_indices_NoDup|].
  split; [intros a b Ha Hb Hout; now apply (top_indices_complete argsort scores a b)|].
  split; [now apply selected_sorted|].
  split; [now apply selected_NoDup|].
  split; [apply Forall_forall; intros a Ha; now apply selected_In|].
  split; [apply selected_length|].
  intros b Hb Hpos Hout. now apply selected_complete.
Qed.

Lemma top_keywords_stored_witness :
  sorts Samples.insertion_argsort
  /\ preprocess_text (Some "Login failed!") <> ""
  /\ nth_error (fst (extract_keywords_tfidf Samples.insertion_argsort
                       Samples.count_vectorizer Samples.cbe_reviews 50)) 0
     = Some "failed, login".
Proof.
  split; [exact insertion_argsort_sorts|]. split; [discriminate|].
  destruct (top_keywords_stored Samples.insertion_argsort
              Samples.count_vectorizer Samples.cbe_reviews 50
              [[1; 1]; [1; 1]; [0; 0]]%Q ["login"; "failed"] 0
              (Samples.row "Login failed!" 1 "CBE" "NEGATIVE" "")
              insertion_argsort_sorts eq_refl (le_n 3)
              ltac:(repeat constructor) eq_refl ltac:(discriminate))
    as (scores & Hrow & Hentry & _).
  injection Hrow as <-. exact Hentry.
Defined.

(** Six terms of one weight, sorted by insertion: the five stored are
    the last five of the vocabulary, the last one first. *)
Lemma tied_keywords :
  selected Samples.insertion_argsort Samples.tied_scores = [5; 4; 3; 2; 1]
  /\ keywords_of Samples.insertion_argsort Samples.tied_scores Samples.tied_names
     = Some ["work"; "nice"; "good"; "card"; "bank"; "app"].
Proof. split; reflexivity. Qed.

(** An [argsort] as numpy promises one, under which equal weights do
    not come out in vocabulary order. *)
Lemma top_keywords_counterexample :
  sorts Samples.insertion_argsort
  /\ ~ ties_in_vocabulary_order Samples.tied_scores
         (selected Samples.insertion_argsort Samples.tied_scores).
Proof.
  split; [exact insertion_argsort_sorts|].
  intros H.
  specialize (H [] 5 [] 4 [3; 2; 1] eq_refl (Qeq_refl _)). lia.
Qed.

End Extractor.

(** ** The recommendation mapper *)

Section Mapper.

Import Insights Spec.

Lemma append_if_to_list {A : Type} (l : list A) (o : option A) :
  append_if l o = l ++ to_list o.
Proof. destruct o; simpl; [reflexivity | now rewrite app_nil_r]. Qed.

Lemma recommend_closed (insights : InsightSet) :
  recommend insights
  = flat_map (fun p => to_list (pain_point_recommendation (i_theme p)))
             (pain_points insights)
    ++ flat_map (fun d => to_list (driver_recommendation (i_theme d)))
                (drivers insights).
Proof.
  unfold recommend.
  rewrite (fold_left_append _
             (fun d => to_list (driver_recommendation (i_theme d))))
    by (intros; apply append_if_to_list).
  rewrite (fold_left_append _
             (fun p => to_list (pain_point_recommendation (i_theme p))))
    by (intros; apply append_if_to_list).
  reflexivity.
Qed.

Lemma pain_point_unmatched (theme : string) :
  pain_point_recommendation theme = None
  <-> forall trigger, In trigger pain_triggers -> Text.contains trigger theme = false.
Proof.
  unfold pain_point_recommendation, pain_triggers. split.
  - intros H trigger Hin.
    destruct (Text.contains "Account Access" theme) eqn:E1; [discriminate|].
    destruct (Text.contains "Transaction Performance" theme) eqn:E2; [discriminate|].
    destruct (Text.contains "User Interface" theme) eqn:E3; [discriminate|].
    destruct (Text.contains "Experience" theme) eqn:E4; [discriminate|].
    destruct (Text.contains "Customer Support" theme) eqn:E5; [discriminate|].
    destruct (Text.contains "Reliability" theme) eqn:E6; [discriminate|].
    simpl in Hin. repeat (destruct Hin as [<-|Hin]; [assumption|]). destruct Hin.
  - intros H.
    rewrite (H "Account Access"), (H "Transaction Performance"),
      (H "User Interface"), (H "Experience"), (H "Customer Support"),
      (H "Reliability") by (simpl; tauto).
    reflexivity.
Qed.

Lemma flat_map_to_list_length {A B : Type} (f : A -> option B) (l : list A) :
  length (flat_map (fun a => to_list (f a)) l)
  = length (filter (fun a => match f a with Some _ => true | None => false end) l).
Proof.
  induction l as [|a l IH]; simpl; [reflexivity|].
  destruct (f a); simpl; now rewrite IH.
Qed.

(** C8. The recommendations are those of the pain points, in the order
    of the pain points, followed by those of the drivers, in the order of
    the drivers. A pain point gives one recommendation or, when none of
    the triggers occurs in its theme, none; a driver gives one, of
    priority Low, exactly when its theme contains Transaction
    Performance; and every entry that gives one is counted, repeated or
    not. *)
Theorem recommendation_order (insights : InsightSet) :
  recommend insights
  = flat_map (fun p => to_list (pain_point_recommendation (i_theme p)))
             (pain_points insights)
    ++ flat_map (fun d => to_list (driver_recommendation (i_theme d)))
                (drivers insights)
  /\ (forall theme, length (to_list (pain_point_recommendation theme)) <= 1)
  /\ (forall theme,
        pain_point_recommendation theme = None
        <-> forall trigger, In trigger pain_triggers ->
                            Text.contains trigger theme = false)
  /\ (forall theme,
        Text.contains "Transaction Performance" theme = true ->
        exists r, driver_recommendation theme = Some r /\ priority r = "Low")
  /\ (forall theme,
        Text.contains "Transaction Performance" theme = false ->
        driver_recommendation theme = None)
  /\ length (recommend insights)
     = length (filter (fun p => match pain_point_recommendation (i_theme p) with
                                | Some _ => true
                                | None => false
                                end) (pain_points insights))
       + length (filter (fun d => Text.contains "Transaction Performance" (i_theme d))
                        (drivers insights))
  /\ (forall df bank_name,
        generate_recommendations df bank_name
        = recommend (identify_drivers_and_pain_points df (Some bank_name))).
Proof.
  split; [apply recommend_closed|].
  split; [intros theme; destruct (pain_point_recommendation theme); simpl; lia|].
  split; [apply pain_point_unmatched|].
  split; [|split; [|split]].
  - intros theme H. unfold driver_recommendation. rewrite H.
    eexists. split; reflexivity.
  - intros theme H. unfold driver_recommendation. now rewrite H.
  - rewrite recommend_closed, length_app, !flat_map_to_list_length. f_equal.
    f_equal. apply filter_ext. intros d. unfold driver_recommendation.
    now destruct (Text.contains "Transaction Performance" (i_theme d)).
  - reflexivity.
Qed.

Lemma recommendation_order_witness :
  Text.contains "Transaction Performance" "Transaction Performance" = true
  /\ map priority (generate_recommendations Samples.divided "BOA")
     = ["High"; "Critical"; "Low"].
Proof.
  split; [reflexivity|].
  destruct (recommendation_order
              (identify_drivers_and_pain_points Samples.divided (Some "BOA")))
    as (Hclosed & _ & _ & Hdriver & _ & _ & Hgen).
  destruct (Hdriver "Transaction Performance" eq_refl) as (r & Hr & Hlow).
  rewrite Hgen, Hclosed. reflexivity.
Defined.

(** A theme listed twice is answered twice. *)
Example recommendations_repeat :
  let twice := {| i_theme := "App Reliability"; i_count := 1; i_percentage := 50 |} in
  map category (recommend {| drivers := []; pain_points := [twice; twice] |})
  = ["Stability"; "Stability"].
Proof. reflexivity. Qed.

End Mapper.

(** * Further properties *)

(** ** Text normalization *)

Section Normalization.

Import Text Thematic Spec.

Lemma lower_char_alpha (c : ascii) :
  is_alpha (lower_char c) = true -> is_lower (lower_char c) = true.
Proof.
  destruct c as [b0 b1 b2 b3 b4 b5 b6 b7].
  destruct b0, b1, b2, b3, b4, b5, b6, b7; vm_compute; auto.
Qed.

Lemma lower_char_space (c : ascii) : is_space (lower_char c) = is_space c.
Proof.
  destruct c as [b0 b1 b2 b3 b4 b5 b6 b7].
  destruct b0, b1, b2, b3, b4, b5, b6, b7; reflexivity.
Qed.

Lemma plain_fixed (c : ascii) :
  plain c = true ->
  lower_char c = c /\ (is_alpha c || is_space c) = true
  /\ (is_space c = true -> c = " "%char).
Proof.
  destruct c as [b0 b1 b2 b3 b4 b5 b6 b7].
  destruct b0, b1, b2, b3, b4, b5, b6, b7; vm_compute; intros H;
    try discriminate; repeat split; auto; discriminate.
Qed.

(** After lower-casing and the first substitution only lower-case
    letters and white space are left. *)
Lemma remove_special_lower (s : string) :
  all_chars (fun c => is_lower c || is_space c) (remove_special (lower s)) = true.
Proof.
  induction s as [|c s IH]; simpl; [reflexivity|].
  destruct (is_alpha (lower_char c)) eqn:Ea; simpl.
  - now rewrite (lower_char_alpha c Ea), IH.
  - destruct (is_space (lower_char c)) eqn:Es; simpl; [|exact IH].
    now rewrite Es, orb_true_r, IH.
Qed.

Lemma collapse_spaces_plain (s : string) :
  all_chars (fun c => is_lower c || is_space c) s = true ->
  all_chars plain (collapse_spaces s) = true.
Proof.
  induction s as [|c s IH]; simpl; [reflexivity|].
  intros H. apply andb_prop in H. destruct H as [Hc Hs].
  destruct (is_space c) eqn:Ec.
  - destruct s as [|d s']; [reflexivity|].
    destruct (is_space d); [now apply IH|].
    change (all_chars plain (collapse_spaces (String d s')) = true). now apply IH.
  - simpl. rewrite orb_false_r in Hc. unfold plain at 1. rewrite Hc. simpl.
    now apply IH.
Qed.

Lemma collapse_spaces_head (c : ascii) (s : string) :
  is_space c = false ->
  exists r, collapse_spaces (String c s) = String c r.
Proof. intros H. simpl. rewrite H. eexists. reflexivity. Qed.

Lemma single_spaced_cons (c d : ascii) (r : string) :
  single_spaced (String c (String d r))
  = negb (is_space c && is_space d) && single_spaced (String d r).
Proof. reflexivity. Qed.

Lemma collapse_spaces_single (s : string) : single_spaced (collapse_spaces s) = true.
Proof.
  induction s as [|c s IH]; [reflexivity|].
  cbn [collapse_spaces]. destruct (is_space c) eqn:Ec.
  - destruct s as [|d s']; [reflexivity|].
    destruct (is_space d) eqn:Ed; [exact IH|].
    destruct (collapse_spaces_head d s' Ed) as [r Hr].
    rewrite Hr in *. rewrite single_spaced_cons, Ed, andb_false_r. exact IH.
  - destruct (collapse_spaces s) as [|d r]; [reflexivity|].
    rewrite single_spaced_cons, Ec. exact IH.
Qed.

Lemma lstrip_append_blank (t u : string) :
  lstrip t = "" -> lstrip (String.append t u) = lstrip u.
Proof.
  induction t as [|c t IH]; simpl; [reflexivity|].
  destruct (is_space c); [exact IH | discriminate].
Qed.

Lemma lstrip_append_full (t u : string) :
  lstrip t <> "" -> lstrip (String.append t u) = String.append (lstrip t) u.
Proof.
  induction t as [|c t IH]; simpl; [congruence|].
  destruct (is_space c); [exact IH | reflexivity].
Qed.

(** [rstrip] read from the left. *)
Lemma rstrip_cons (c : ascii) (r : string) :
  rstrip (String c r)
  = match rstrip r with
    | EmptyString => if is_space c then "" else String c ""
    | String _ _ => String c (rstrip r)
    end.
Proof.
  unfold rstrip. simpl.
  destruct (lstrip (rev_string r)) as [|d w] eqn:E.
  - rewrite (lstrip_append_blank _ _ E). simpl. now destruct (is_space c).
  - rewrite lstrip_append_full by congruence. rewrite E, rev_string_append.
    remember (rev_string (String d w)) as z eqn:Ez.
    change (rev_string (String c "")) with (String c "").
    change (String.append (String c "") z) with (String c z).
    destruct z as [|e v]; [|reflexivity].
    apply (f_equal rev_string) in Ez. rewrite rev_string_involutive in Ez.
    discriminate.
Qed.

Lemma rstrip_head (s : string) (d : ascii) (w : string) :
  rstrip s = String d w -> exists r, s = String d r.
Proof.
  destruct s as [|c r]; [discriminate|]. rewrite rstrip_cons.
  destruct (rstrip r); [destruct (is_space c)|]; intros H; inversion H; subst; eauto.
Qed.

Section Kept.

Variable p : ascii -> bool.

Lemma lstrip_all_chars (s : string) :
  all_chars p s = true -> all_chars p (lstrip s) = true.
Proof.
  induction s as [|c s IH]; simpl; [reflexivity|]. intros H.
  destruct (is_space c); [|exact H].
  apply andb_prop in H. now apply IH.
Qed.

Lemma rstrip_all_chars (s : string) :
  all_chars p s = true -> all_chars p (rstrip s) = true.
Proof.
  induction s as [|c s IH]; [reflexivity|]. intros H.
  simpl in H. apply andb_prop in H. destruct H as [Hc Hs].
  rewrite rstrip_cons. specialize (IH Hs).
  destruct (rstrip s); [destruct (is_space c)|]; simpl; rewrite ?Hc; auto.
Qed.

End Kept.

Lemma single_spaced_tail (c : ascii) (s : string) :
  single_spaced (String c s) = true -> single_spaced s = true.
Proof.
  destruct s as [|d r]; [reflexivity|]. rewrite single_spaced_cons.
  intros H. now apply andb_prop in H.
Qed.

Lemma lstrip_single (s : string) :
  single_spaced s = true -> single_spaced (lstrip s) = true.
Proof.
  induction s as [|c s IH]; [reflexivity|]. intros H. cbn [lstrip].
  destruct (is_space c); [|exact H]. apply IH. now apply single_spaced_tail in H.
Qed.

Lemma rstrip_single (s : string) :
  single_spaced s = true -> single_spaced (rstrip s) = true.
Proof.
  induction s as [|c s IH]; [reflexivity|]. intros H.
  rewrite rstrip_cons. pose proof (IH (single_spaced_tail _ _ H)) as IH'.
  destruct (rstrip s) as [|d w] eqn:E; [now destruct (is_space c)|].
  destruct (rstrip_head _ _ _ E) as [r ->].
  rewrite single_spaced_cons in H |- *. apply andb_prop in H. destruct H as [H _].
  now rewrite H, IH'.
Qed.

Lemma lower_plain (s : string) : all_chars plain s = true -> lower s = s.
Proof.
  induction s as [|c s IH]; simpl; [reflexivity|]. intros H.
  apply andb_prop in H. destruct H as [Hc Hs].
  destruct (plain_fixed c Hc) as [-> _]. now rewrite IH.
Qed.

Lemma remove_special_plain (s : string) :
  all_chars plain s = true -> remove_special s = s.
Proof.
  induction s as [|c s IH]; simpl; [reflexivity|]. intros H.
  apply andb_prop in H. destruct H as [Hc Hs].
  destruct (plain_fixed c Hc) as (_ & -> & _). now rewrite IH.
Qed.

Lemma collapse_spaces_plain_single (s : string) :
  all_chars plain s = true -> single_spaced s = true -> collapse_spaces s = s.
Proof.
  induction s as [|c s IH]; [reflexivity|]. intros Hp Hs.
  simpl in Hp. apply andb_prop in Hp. destruct Hp as [Hc Hp].
  pose proof (IH Hp (single_spaced_tail _ _ Hs)) as IH'.
  cbn [collapse_spaces]. destruct (is_space c) eqn:Ec.
  - destruct (plain_fixed c Hc) as (_ & _ & Hsp). rewrite (Hsp Ec) in *.
    destruct s as [|d r]; [reflexivity|].
    rewrite single_spaced_cons in Hs. apply andb_prop in Hs. destruct Hs as [Hs _].
    change (is_space " ") with true in Hs. simpl in Hs.
    apply negb_true_iff in Hs. rewrite Hs. now rewrite IH'.
  - now rewrite IH'.
Qed.

(** X1. The normalized text holds only lower-case letters and spaces,
    never two spaces in a row, no space at either end; normalizing it
    again changes nothing, and a missing text normalizes to the empty
    string. *)
Theorem preprocess_text_normal (text : option string) :
  let s := preprocess_text text in
  all_chars plain s = true
  /\ single_spaced s = true
  /\ clean_start s
  /\ clean_start (rev_string s)
  /\ preprocess_text (Some s) = s
  /\ preprocess_text None = "".
Proof.
  intros s.
  assert (Hp : all_chars plain s = true).
  { destruct text as [x|]; [|reflexivity]. unfold s, preprocess_text, strip.
    apply rstrip_all_chars, lstrip_all_chars, collapse_spaces_plain,
      remove_special_lower. }
  assert (Hs : single_spaced s = true).
  { destruct text as [x|]; [|reflexivity]. unfold s, preprocess_text, strip.
    apply rstrip_single, lstrip_single, collapse_spaces_single. }
  assert (Hstrip : strip s = s).
  { destruct text as [x|]; [|reflexivity]. unfold s, preprocess_text.
    apply strip_idempotent. }
  split; [exact Hp|]. split; [exact Hs|].
  split; [rewrite <- Hstrip; unfold strip; apply rstrip_clean, lstrip_clean|].
  split.
  - rewrite <- Hstrip. unfold strip, rstrip. rewrite rev_string_involutive.
    apply lstrip_clean.
  - split; [|reflexivity]. unfold preprocess_text.
    now rewrite (lower_plain s Hp), (remove_special_plain s Hp),
      (collapse_spaces_plain_single s Hp Hs).
Qed.

End Normalization.

(** ** The extractor on every path *)

Section ExtractorShape.

Import Numpy Thematic Spec.

Lemma mapM_In {A B : Type} (f : A -> option B) :
  forall (l : list A) (r : list B) (b : B),
    mapM f l = Some r -> In b r -> exists a, In a l /\ f a = Some b.
Proof.
  induction l as [|a l IH]; simpl; intros r b H Hin.
  - inversion H; subst. destruct Hin.
  - destruct (f a) as [b0|] eqn:Ea; cbn [bind] in H; [|discriminate].
    destruct (mapM f l) as [bs|]; cbn [bind] in H; [|discriminate].
    inversion H; subst. destruct Hin as [<-|Hin].
    + exists a. auto.
    + destruct (IH bs b eq_refl Hin) as (a' & Ha' & Hf). exists a'. auto.
Qed.

Lemma keywords_of_vocabulary (argsort : list Q -> list nat) (scores : list Q)
    (feature_names keywords : list string) :
  keywords_of argsort scores feature_names = Some keywords ->
  incl keywords feature_names.
Proof.
  intros H k Hk. destruct (mapM_In _ _ _ _ H Hk) as (idx & _ & Hidx).
  eapply nth_error_In; eassumption.
Qed.

(** Every entry of the loop joins at most five names of the vocabulary. *)
Lemma keywords_loop_entries (argsort : list Q -> list nat)
    (tfidf_matrix : list (list Q)) (feature_names : list string) :
  forall texts i keywords_list,
    keywords_loop argsort tfidf_matrix feature_names i texts = Some keywords_list ->
    Forall (fun e => exists ks, e = Text.join ", " ks /\ length ks <= 5
                                /\ incl ks feature_names) keywords_list.
Proof.
  induction texts as [|t rest IH]; intros i kl Hloop; cbn [keywords_loop] in Hloop.
  - inversion Hloop. constructor.
  - destruct (if Text.truthy (Text.strip t) then _ else _) as [e|] eqn:He;
      cbn [bind] in Hloop; [|discriminate].
    destruct (keywords_loop argsort tfidf_matrix feature_names (S i) rest) as [es|] eqn:Hes;
      cbn [bind] in Hloop; [|discriminate].
    inversion Hloop; subst kl. constructor; [|eapply IH; eassumption].
    destruct (Text.truthy (Text.strip t)).
    + destruct (nth_error tfidf_matrix i) as [scores|]; cbn [bind] in He;
        [|discriminate].
      destruct (keywords_of argsort scores feature_names) as [keywords|] eqn:Hk;
        cbn [bind] in He; [|discriminate].
      injection He as <-. exists (firstn 5 keywords). split; [reflexivity|].
      split; [apply firstn_le_length|].
      intros k Hk'. apply (keywords_of_vocabulary _ _ _ _ Hk).
      rewrite <- (firstn_skipn 5 keywords). apply in_or_app. now left.
    + injection He as <-. exists []. split; [reflexivity|].
      split; [simpl; lia | intros k []].
Qed.

(** X2. Whatever the vectorizer does, the extractor returns one keyword
    string per review, each the comma-joined list of at most five terms
    of the vocabulary it returns. *)
Theorem extract_keywords_shape (argsort : list Q -> list nat)
    (fit_transform : nat -> list string -> option (list (list Q) * list string))
    (df : DataFrame) (max_features : nat) :
  let result := extract_keywords_tfidf argsort fit_transform df max_features in
  length (fst result) = Pandas.len df
  /\ Forall (fun e => exists ks, e = Text.join ", " ks /\ length ks <= 5
                                 /\ incl ks (snd result)) (fst result).
Proof.
  unfold extract_keywords_tfidf, try_extract.
  set (texts := map (fun r => preprocess_text (review r)) (rows df)).
  assert (Hn : length texts = Pandas.len df) by apply length_map.
  destruct (fit_transform max_features texts) as [[m names]|]; cbn [bind fst snd].
  - destruct (keywords_loop argsort m names 0 texts) as [kl|] eqn:Hloop;
      cbn [bind fst snd].
    + split; [now rewrite (keywords_loop_length _ _ _ _ _ _ Hloop)|].
      eapply keywords_loop_entries; eassumption.
    + split; [now rewrite length_map|].
      apply Forall_map, Forall_forall. intros t _. exists [].
      split; [reflexivity|]. split; [simpl; lia | intros k []].
  - split; [now rewrite length_map|].
    apply Forall_map, Forall_forall. intros t _. exists [].
    split; [reflexivity|]. split; [simpl; lia | intros k []].
Qed.

(** X3. An exception inside the loop is caught like one of the
    vectorizer: when the matrix has no row for a document whose
    normalized text is not empty, every document gets the empty keyword
    string and the vocabulary is empty. *)
Theorem loop_failure_recovered (argsort : list Q -> list nat)
    (fit_transform : nat -> list string -> option (list (list Q) * list string))
    (df : DataFrame) (max_features : nat)
    (tfidf_matrix : list (list Q)) (feature_names : list string)
    (i : nat) (r : Review) :
  fit_transform max_features (map (fun r => preprocess_text (review r)) (rows df))
  = Some (tfidf_matrix, feature_names) ->
  nth_error (rows df) i = Some r ->
  preprocess_text (review r) <> "" ->
  nth_error tfidf_matrix i = None ->
  extract_keywords_tfidf argsort fit_transform df max_features
  = (repeat "" (Pandas.len df), []).
Proof.
  intros Hfit Hi Hfull Hrow.
  unfold extract_keywords_tfidf, try_extract.
  set (texts := map (fun r => preprocess_text (review r)) (rows df)) in *.
  rewrite Hfit. cbn [bind fst snd].
  destruct (keywords_loop argsort tfidf_matrix feature_names 0 texts)
    as [kl|] eqn:Hloop; cbn [bind].
  - exfalso.
    assert (Ht : nth_error texts i = Some (preprocess_text (review r))).
    { unfold texts. now rewrite nth_error_map, Hi. }
    destruct (keywords_loop_entry _ _ _ _ _ _ _ _ Hloop Ht
                (normalized_not_blank _ Hfull))
      as (scores & _ & Hs & _).
    simpl in Hs. congruence.
  - rewrite map_const_repeat. unfold texts, Pandas.len. now rewrite length_map.
Qed.

Lemma loop_failure_recovered_witness :
  nth_error ([] : list (list Q)) 0 = None
  /\ extract_keywords_tfidf Samples.insertion_argsort Samples.rowless_vectorizer
       Samples.cbe_reviews 50
     = ([""; ""; ""], []).
Proof.
  split; [reflexivity|].
  exact (loop_failure_recovered Samples.insertion_argsort
           Samples.rowless_vectorizer Samples.cbe_reviews 50
           [] ["login"] 0 (Samples.row "Login failed!" 1 "CBE" "NEGATIVE" "")
           eq_refl eq_refl ltac:(discriminate) eq_refl).
Defined.

End ExtractorShape.

(** ** The classifier on any keyword list *)

Section ClassifierRange.

Import Text Thematic Spec.

Lemma lower_char_idempotent (c : ascii) : lower_char (lower_char c) = lower_char c.
Proof.
  destruct c as [b0 b1 b2 b3 b4 b5 b6 b7].
  destruct b0, b1, b2, b3, b4, b5, b6, b7; reflexivity.
Qed.

Lemma lower_idempotent (s : string) : lower (lower s) = lower s.
Proof.
  induction s as [|c s IH]; simpl; [reflexivity|].
  now rewrite lower_char_idempotent, IH.
Qed.

Lemma assign_theme_lower (taxonomy : list (string * list string)) (keywords : string) :
  assign_theme taxonomy (lower keywords) = assign_theme taxonomy keywords.
Proof.
  unfold assign_theme. rewrite lower_idempotent. now destruct keywords.
Qed.

(** The theme is "", Other or a name of the taxonomy. *)
Lemma assign_theme_range (taxonomy : list (string * list string)) (keywords : string) :
  In (assign_theme taxonomy keywords) ("" :: "Other" :: map fst taxonomy).
Proof.
  unfold assign_theme. destruct (truthy keywords); simpl; [|now left].
  rewrite matched_themes_filter.
  destruct (filter _ taxonomy) as [|e l] eqn:E; simpl; [tauto|].
  right. right. apply in_map.
  assert (H : In e (filter (fun entry => any_pattern (snd entry) (lower keywords))
                           taxonomy)) by (rewrite E; now left).
  now apply filter_In in H.
Qed.

Lemma assign_theme_empty (keywords : string) :
  assign_theme theme_patterns keywords = "" <-> keywords = "".
Proof.
  split; [|now intros ->].
  destruct keywords as [|c k]; [reflexivity|]. intros H. exfalso.
  unfold assign_theme in H. cbn [truthy negb] in H. cbv iota in H.
  rewrite matched_themes_filter in H.
  destruct (filter _ theme_patterns) as [|e l] eqn:E; [discriminate|].
  assert (Hin : In e theme_patterns).
  { assert (H' : In e (e :: l)) by now left.
    rewrite <- E in H'. now apply filter_In in H'. }
  simpl in H. simpl in Hin.
  repeat (destruct Hin as [<-|Hin]; [discriminate|]). destruct Hin.
Qed.

(** X4. The classifier returns one theme per keyword string; every theme
    is "", Other or one of the seven names of the taxonomy; and the theme
    is "" exactly where the keyword string is empty. *)
Theorem themes_closed (keywords_list : list string) (df : DataFrame) :
  let themes := identify_themes_manual keywords_list df in
  length themes = length keywords_list
  /\ Forall (fun t => In t ("" :: "Other" :: taxonomy_order)) themes
  /\ (forall i, nth_error themes i = Some "" <-> nth_error keywords_list i = Some "").
Proof.
  intros themes. unfold themes. rewrite identify_themes_manual_map.
  split; [apply length_map|]. split.
  - apply Forall_map, Forall_forall. intros k _.
    apply (assign_theme_range theme_patterns).
  - intros i. rewrite nth_error_map.
    destruct (nth_error keywords_list i) as [k|]; simpl; [|split; discriminate].
    split; intros H; injection H as H'; f_equal.
    + exact (proj1 (assign_theme_empty k) H').
    + exact (proj2 (assign_theme_empty k) H').
Qed.

(** X5. The case of the keywords does not matter: lower-casing every
    keyword string leaves every theme as it was. *)
Theorem themes_ignore_case (keywords_list : list string) (df : DataFrame) :
  identify_themes_manual (map lower keywords_list) df
  = identify_themes_manual keywords_list df.
Proof.
  rewrite !identify_themes_manual_map, map_map.
  apply map_ext. intros k. apply assign_theme_lower.
Qed.

End ClassifierRange.

(** ** Grouping by a key *)

Section Groups.

Import Pandas Spec.

Lemma mapM_fails {A B : Type} (f : A -> option B) (l : list A) (a : A) :
  In a l -> f a = None -> mapM f l = None.
Proof.
  induction l as [|x l IH]; simpl; intros Hin Hf; [tauto|].
  destruct Hin as [->|Hin].
  - now rewrite Hf.
  - destruct (f x); cbn [bind]; [|reflexivity]. now rewrite (IH Hin Hf).
Qed.

Lemma list_sum_cons (n : nat) (l : list nat) : list_sum (n :: l) = n + list_sum l.
Proof. reflexivity. Qed.

(** A sum over distinct keys, one key set apart. *)
Lemma sum_without (g : string -> nat) (x : string) :
  forall keys, NoDup keys ->
    list_sum (map g keys)
    = (if in_dec string_dec x keys then g x else 0)
      + list_sum (map g (filter (fun y => negb (String.eqb y x)) keys)).
Proof.
  induction keys as [|k keys IH]; intros Hnd; [reflexivity|].
  inversion Hnd as [|? ? Hnotin Hnd']; subst. specialize (IH Hnd').
  cbn [filter]. rewrite map_cons, list_sum_cons, IH.
  destruct (String.eqb_spec k x) as [->|Hne]; cbn [negb].
  - destruct (in_dec string_dec x (x :: keys)) as [_|Hout];
      [|exfalso; apply Hout; now left].
    destruct (in_dec string_dec x keys) as [Hin|_]; [contradiction|]. lia.
  - rewrite map_cons, list_sum_cons.
    destruct (in_dec string_dec x keys) as [Hin|Hout];
      destruct (in_dec string_dec x (k :: keys)) as [Hin'|Hout']; try lia.
    + exfalso. apply Hout'. now right.
    + destruct Hin' as [E|Hin']; [congruence | contradiction].
Qed.

Lemma filter_all {A : Type} (p : A -> bool) (l : list A) :
  (forall a, In a l -> p a = true) -> filter p l = l.
Proof.
  induction l as [|a l IH]; simpl; intros H; [reflexivity|].
  rewrite (H a) by now left. f_equal. apply IH. intros b Hb. apply H. now right.
Qed.

Lemma filter_none {A : Type} (p : A -> bool) (l : list A) :
  (forall a, In a l -> p a = false) -> filter p l = [].
Proof.
  induction l as [|a l IH]; simpl; intros H; [reflexivity|].
  rewrite (H a) by now left. apply IH. intros b Hb. apply H. now right.
Qed.

Context {A : Type} (key : A -> string).

(** The groups of the distinct keys share out the list. *)
Lemma groups_cover (l : list A) :
  list_sum (map (fun b => length (group key b l)) (unique (map key l))) = length l.
Proof.
  induction l as [|x l IH]; [reflexivity|].
  cbn [map unique]. rewrite list_sum_cons.
  assert (Hrest : map (fun b => length (group key b (x :: l)))
                      (filter (fun y => negb (String.eqb y (key x))) (unique (map key l)))
                  = map (fun b => length (group key b l))
                        (filter (fun y => negb (String.eqb y (key x))) (unique (map key l)))).
  { apply map_ext_in. intros b Hb. apply filter_In in Hb. destruct Hb as [_ Hb].
    apply negb_true_iff in Hb. unfold group. cbn [filter].
    rewrite String.eqb_sym, Hb. reflexivity. }
  rewrite Hrest.
  assert (Hhead : length (group key (key x) (x :: l)) = S (length (group key (key x) l))).
  { unfold group. cbn [filter]. now rewrite String.eqb_refl. }
  rewrite Hhead. cbn [length]. rewrite <- IH.
  rewrite (sum_without (fun b => length (group key b l)) (key x) _ (unique_NoDup _)).
  destruct (in_dec string_dec (key x) (unique (map key l))) as [Hin|Hout]; [lia|].
  assert (Hnone : group key (key x) l = []).
  { apply filter_none. intros a Ha. apply String.eqb_neq. intros E.
    apply Hout, unique_In. rewrite <- E. now apply in_map. }
  rewrite Hnone. simpl. lia.
Qed.

Lemma group_nonempty (l : list A) (b : string) :
  In b (unique (map key l)) -> 1 <= length (group key b l).
Proof.
  intros H. apply unique_In, in_map_iff in H. destruct H as (a & <- & Ha).
  assert (Hin : In a (group key (key a) l))
    by (apply filter_In; split; [assumption | apply String.eqb_refl]).
  destruct (group key (key a) l); [destruct Hin | simpl; lia].
Qed.

End Groups.

(** ** The per-bank classification *)

Section PerBank.

Import Pandas Thematic Spec.

Lemma by_bank_closed (df : DataFrame) (keywords_list : list string) :
  index df = seq 0 (len df) ->
  length keywords_list = len df ->
  identify_themes_by_bank df keywords_list
  = Some (map (fun b =>
                 (b, map (assign_theme theme_patterns)
                         (map snd (group (fun rk => bank (fst rk)) b
                                         (combine (rows df) keywords_list)))))
              (unique (map bank (rows df)))).
Proof.
  intros Hindex Hlen. unfold identify_themes_by_bank.
  apply mapM_total, Forall_forall. intros b _.
  unfold select at 1. simpl index. rewrite Hindex.
  pose proof (keywords_at_labels (fun r => String.eqb (bank r) b)
                (rows df) keywords_list [] Hlen) as Hk.
  simpl in Hk. unfold len. rewrite Hk. cbn [bind].
  now rewrite identify_themes_manual_map.
Qed.

Lemma group_combine_length {X Y : Type} (key : X -> string) (b : string) :
  forall (xs : list X) (ys : list Y),
    length xs = length ys ->
    length (group (fun xy => key (fst xy)) b (combine xs ys)) = length (group key b xs).
Proof.
  unfold group.
  induction xs as [|x xs IH]; intros [|y ys] H; simpl in *; try discriminate;
    [reflexivity|].
  destruct (String.eqb (key x) b); simpl; rewrite IH by lia; reflexivity.
Qed.

(** X6. On a frame with the default index and one keyword string per
    row, the per-bank classification has one entry per distinct bank, in
    order of first appearance; each bank gets as many themes as it has
    reviews, at least one; and the themes of all banks together are as
    many as the reviews. *)
Theorem per_bank_partition (df : DataFrame) (keywords_list : list string) :
  index df = seq 0 (len df) ->
  length keywords_list = len df ->
  exists bank_themes,
    identify_themes_by_bank df keywords_list = Some bank_themes
    /\ map fst bank_themes = unique (map bank (rows df))
    /\ NoDup (map fst bank_themes)
    /\ Forall (fun bt => length (snd bt) = length (group bank (fst bt) (rows df))
                         /\ 1 <= length (snd bt)) bank_themes
    /\ list_sum (map (fun bt => length (snd bt)) bank_themes) = len df.
Proof.
  intros Hindex Hlen. eexists. split; [now apply by_bank_closed|].
  assert (Hsize : forall b,
             length (map (assign_theme theme_patterns)
                       (map snd (group (fun rk => bank (fst rk)) b
                                       (combine (rows df) keywords_list))))
             = length (group bank b (rows df))).
  { intros b. rewrite !length_map. apply group_combine_length.
    unfold len in Hlen. congruence. }
  split; [rewrite map_map; apply map_id|].
  split; [rewrite map_map, map_id; apply unique_NoDup|].
  split.
  - apply Forall_map, Forall_forall. intros b Hb. cbn [fst snd].
    rewrite Hsize. split; [reflexivity | now apply group_nonempty].
  - rewrite map_map. cbn [snd].
    rewrite (map_ext _ (fun b => length (group bank b (rows df))) Hsize).
    apply groups_cover.
Qed.

Lemma per_bank_partition_witness :
  index Samples.blank_review = seq 0 (len Samples.blank_review)
  /\ length ["failed, login"; ""; "failed, login"] = len Samples.blank_review
  /\ exists bank_themes,
       identify_themes_by_bank Samples.blank_review ["failed, login"; ""; "failed, login"]
       = Some bank_themes
       /\ map fst bank_themes = ["CBE"].
Proof.
  split; [reflexivity|]. split; [reflexivity|].
  destruct (per_bank_partition Samples.blank_review
              ["failed, login"; ""; "failed, login"] eq_refl eq_refl)
    as (bank_themes & H1 & H2 & _).
  exists bank_themes. split; [exact H1 | exact H2].
Defined.

(** X7. A row whose index label lies beyond the keyword list makes the
    per-bank classification raise. *)
Theorem per_bank_label_out_of_range (df : DataFrame) (keywords_list : list string)
    (label : nat) (r : Review) :
  In (label, r) (combine (index df) (rows df)) ->
  length keywords_list <= label ->
  identify_themes_by_bank df keywords_list = None.
Proof.
  intros Hin Hout. unfold identify_themes_by_bank.
  apply (mapM_fails _ _ (bank r)).
  - apply unique_In, in_map. eapply in_combine_r; eassumption.
  - assert (Hnone : mapM (nth_error keywords_list)
                      (index (select (fun r0 => String.eqb (bank r0) (bank r)) df))
                    = None).
    { apply (mapM_fails _ _ label); [|now apply nth_error_None].
      unfold select. simpl index. apply in_map_iff. exists (label, r).
      split; [reflexivity|]. apply filter_In. split; [assumption|].
      apply String.eqb_refl. }
    now rewrite Hnone.
Qed.

Lemma per_bank_label_out_of_range_witness :
  In (2, Samples.row "Great transfer speed" 5 "CBE" "POSITIVE" "")
     (combine (index Samples.cbe_reviews) (rows Samples.cbe_reviews))
  /\ identify_themes_by_bank Samples.cbe_reviews ["failed, login"; "failed, login"]
     = None.
Proof.
  assert (Hin : In (2, Samples.row "Great transfer speed" 5 "CBE" "POSITIVE" "")
                   (combine (index Samples.cbe_reviews) (rows Samples.cbe_reviews)))
    by (simpl; tauto).
  split; [exact Hin|].
  exact (per_bank_label_out_of_range Samples.cbe_reviews
           ["failed, login"; "failed, login"] 2 _ Hin (le_n 2)).
Defined.

End PerBank.

(** ** The insight ranker at its edges *)

Section RankerEdges.

Import Pandas Insights Spec.

Lemma insight_set_eta (s : InsightSet) :
  s = {| drivers := drivers s; pain_points := pain_points s |}.
Proof. now destruct s. Qed.

Lemma insight_set_empty (s : InsightSet) :
  drivers s = [] -> pain_points s = [] -> s = no_insights.
Proof. destruct s; simpl; intros -> ->; reflexivity. Qed.

Lemma top_themes_no_rows (n : nat) (segment : DataFrame) :
  rows segment = [] -> top_themes n segment = [].
Proof. intros H. unfold top_themes, value_counts. rewrite H. now destruct n. Qed.

Lemma seed_of_no_rows (segment : DataFrame) :
  rows segment = [] -> seed_of segment = [].
Proof. intros H. unfold seed_of. now rewrite top_themes_no_rows. Qed.

Lemma extra_of_no_rows (segment : DataFrame) (present : list Insight) :
  rows segment = [] -> extra_of segment present = [].
Proof. intros H. unfold extra_of. now rewrite top_themes_no_rows. Qed.

Lemma select_no_rows (p : Review -> bool) (df : DataFrame) :
  rows df = [] -> rows (select p df) = [].
Proof. unfold select. simpl. now intros ->. Qed.

(** The insight set of a frame without rows. *)
Lemma no_rows_no_insights (df : DataFrame) (bank_name : option string) :
  rows (bank_frame df bank_name) = [] ->
  identify_drivers_and_pain_points df bank_name = no_insights.
Proof.
  intros Hrows.
  destruct (insights_closed df bank_name) as [Hd Hp].
  destruct (seeded_closed df bank_name) as [Sd Sp].
  rewrite Sd in Hd. rewrite Sp in Hp.
  unfold positive_reviews, negative_reviews, low_ratings, high_ratings in *.
  rewrite !seed_of_no_rows, !extra_of_no_rows in Hd, Hp
    by now apply select_no_rows.
  apply insight_set_empty.
  - rewrite Hd. now destruct (sentiment_columns _), (rating_columns _).
  - rewrite Hp. now destruct (sentiment_columns _), (rating_columns _).
Qed.

(** X8. A bank without any review in the frame gets no driver, no pain
    point and no recommendation. *)
Theorem unknown_bank_empty (df : DataFrame) (bank_name : string) :
  bank_name <> "" ->
  (forall r, In r (rows df) -> bank r <> bank_name) ->
  identify_drivers_and_pain_points df (Some bank_name) = no_insights
  /\ generate_recommendations df bank_name = [].
Proof.
  intros Hname Hnone.
  assert (E : identify_drivers_and_pain_points df (Some bank_name) = no_insights).
  { apply no_rows_no_insights. unfold bank_frame.
    apply truthy_true in Hname. rewrite Hname. unfold select. simpl.
    apply filter_none. intros r Hr. apply String.eqb_neq. now apply Hnone. }
  split; [exact E|]. unfold generate_recommendations. now rewrite E.
Qed.

Lemma unknown_bank_empty_witness :
  "Dashen" <> ""
  /\ identify_drivers_and_pain_points Samples.crowded (Some "Dashen") = no_insights
  /\ generate_recommendations Samples.crowded "Dashen" = [].
Proof.
  split; [discriminate|].
  apply (unknown_bank_empty Samples.crowded "Dashen"); [discriminate|].
  intros r Hr. simpl in Hr.
  repeat (destruct Hr as [<-|Hr]; [discriminate|]). destruct Hr.
Defined.

Lemma bank_frame_columns (name : string) (df : DataFrame) (bank_name : option string) :
  has_column name (bank_frame df bank_name) = has_column name df.
Proof.
  unfold bank_frame. destruct bank_name as [b|]; [|reflexivity].
  now destruct (Text.truthy b).
Qed.

(** X9. Without a theme column, or without both the sentiment and the
    rating column, the insight set is empty; without the rating column it
    is the two seed lists; and without the sentiment column each list
    holds at most the two entries of its rating pass. *)
Theorem missing_columns (df : DataFrame) (bank_name : option string) :
  let insights := identify_drivers_and_pain_points df bank_name in
  (has_column "theme" df = false -> insights = no_insights)
  /\ (has_column "sentiment_label" df = false -> has_column "rating" df = false ->
      insights = no_insights)
  /\ (has_column "rating" df = false -> insights = seeded df bank_name)
  /\ (has_column "sentiment_label" df = false ->
      length (drivers insights) <= 2 /\ length (pain_points insights) <= 2).
Proof.
  intros insights.
  destruct (insights_closed df bank_name) as [Hd Hp]. fold insights in Hd, Hp.
  destruct (seeded_closed df bank_name) as [Sd Sp].
  unfold sentiment_columns, rating_columns in *.
  rewrite !bank_frame_columns in *.
  split; [|split; [|split]].
  - intros Ht. rewrite Ht, !andb_false_r in *. apply insight_set_empty.
    + now rewrite Hd, Sd.
    + now rewrite Hp, Sp.
  - intros Hs Hr. rewrite Hs, Hr in *. simpl in *. apply insight_set_empty.
    + now rewrite Hd, Sd.
    + now rewrite Hp, Sp.
  - intros Hr. rewrite Hr in *. simpl in *. rewrite app_nil_r in Hd, Hp.
    rewrite (insight_set_eta insights), (insight_set_eta (seeded df bank_name)).
    now rewrite Hd, Hp.
  - intros Hs. rewrite Hs in *. simpl in *. rewrite Hd, Hp, Sd, Sp. simpl.
    destruct (has_column "rating" df && has_column "theme" df);
      split; try apply extra_of_length; simpl; lia.
Qed.

Lemma missing_columns_witness :
  has_column "theme" Samples.untagged = false
  /\ identify_drivers_and_pain_points Samples.untagged (Some "CBE") = no_insights.
Proof.
  split; [reflexivity|].
  exact (proj1 (missing_columns Samples.untagged (Some "CBE")) eq_refl).
Defined.

End RankerEdges.

(** ** What the insights hold *)

Section RankerSound.

Import Pandas Insights Spec.

Lemma extra_of_reportable (segment : DataFrame) (present : list Insight) :
  Forall (fun p => reportable (i_theme p) = true) (extra_of segment present).
Proof.
  unfold extra_of. apply Forall_map, Forall_forall. intros tc H.
  apply filter_In in H. destruct H as [_ H]. apply andb_prop in H. tauto.
Qed.

Lemma insights_reportable (df : DataFrame) (bank_name : option string) :
  Forall (fun p => reportable (i_theme p) = true)
         (drivers (identify_drivers_and_pain_points df bank_name)
          ++ pain_points (identify_drivers_and_pain_points df bank_name)).
Proof.
  destruct (insights_closed df bank_name) as [-> ->].
  destruct (seeded_closed df bank_name) as [-> ->].
  rewrite !Forall_app.
  destruct (sentiment_columns _), (rating_columns _); repeat split;
    try apply seed_of_reportable; try apply extra_of_reportable; constructor.
Qed.

Lemma occurrences_length (x : string) (l : list string) : occurrences x l <= length l.
Proof.
  unfold occurrences. induction l as [|a l IH]; simpl; [lia|].
  destruct (string_dec a x); lia.
Qed.

(** An insight of a part of the frame counts no more than the frame has
    rows and names a theme of the frame. *)
Lemma from_segment_within (p : Review -> bool) (bank_df : DataFrame) (x : Insight) :
  from_segment (select p bank_df) x ->
  In (i_theme x) (themes_of bank_df)
  /\ i_count x <= len bank_df
  /\ (i_percentage x <= 100)%Q.
Proof.
  intros (Hlen & Hin & Hcount & Hpct).
  assert (Hc : i_count x <= len (select p bank_df)).
  { rewrite Hcount. unfold len, themes_of.
    etransitivity; [apply occurrences_length | now rewrite length_map]. }
  split; [|split].
  - unfold themes_of, select in *. simpl in Hin. apply in_map_iff in Hin.
    destruct Hin as (r & <- & Hr). apply in_map. now apply filter_In in Hr.
  - etransitivity; [exact Hc|]. unfold len, select. simpl.
    apply filter_length_bound.
  - rewrite Hpct.
    apply Qle_shift_div_r; [unfold Qlt; simpl; lia|].
    apply Qmult_le_l; [reflexivity|]. rewrite <- Zle_Qle. lia.
Qed.

(** X10. The themes "" and Other never stand among the drivers or the
    pain points; every listed theme is the theme of a review of the bank;
    no count exceeds the number of the bank's reviews and no percentage
    exceeds 100. *)
Theorem insights_sound (df : DataFrame) (bank_name : option string) :
  let bank_df := bank_frame df bank_name in
  let insights := identify_drivers_and_pain_points df bank_name in
  Forall (fun p => i_theme p <> "" /\ i_theme p <> "Other"
                   /\ In (i_theme p) (themes_of bank_df)
                   /\ i_count p <= len bank_df
                   /\ (i_percentage p <= 100)%Q)
         (drivers insights ++ pain_points insights).
Proof.
  intros bank_df insights.
  pose proof (insights_reportable df bank_name) as Hrep. fold insights in Hrep.
  destruct (segment_parts df bank_name)
    as (low_extra & high_extra & Hp & Hd & _ & _ & Fn & Fl & Fp & Fh).
  fold insights bank_df in Hp, Hd, Fn, Fl, Fp, Fh.
  assert (Hin : Forall (fun p => In (i_theme p) (themes_of bank_df)
                                 /\ i_count p <= len bank_df
                                 /\ (i_percentage p <= 100)%Q)
                       (drivers insights ++ pain_points insights)).
  { rewrite Hp, Hd, !Forall_app. repeat split;
      (eapply Forall_impl; [|eassumption]); intros x; apply from_segment_within. }
  rewrite Forall_forall in Hrep, Hin |- *. intros p Hp'.
  destruct (proj1 (reportable_iff _) (Hrep p Hp')) as [H1 H2].
  destruct (Hin p Hp') as (H3 & H4 & H5). auto.
Qed.

Lemma sorted_map {A B : Type} (R : B -> B -> Prop) (f : A -> B) (l : list A) :
  StronglySorted (fun a b => R (f a) (f b)) l -> StronglySorted R (map f l).
Proof.
  induction 1 as [|a l H IH Ha]; simpl; constructor; [assumption|].
  apply Forall_map. exact Ha.
Qed.

Lemma top_themes_ranked (n : nat) (p : string * nat -> bool) (segment : DataFrame) :
  ranked (map (entry segment) (filter p (top_themes n segment))).
Proof.
  unfold ranked. apply sorted_map. simpl.
  apply sorted_filter. unfold top_themes, head.
  apply sorted_firstn. apply value_counts_descending.
Qed.

(** X11. Each seed list runs from the most frequent theme down, and so
    do the entries each rating pass appends after it. *)
Theorem insights_ranked (df : DataFrame) (bank_name : option string) :
  let insights := identify_drivers_and_pain_points df bank_name in
  exists low_extra high_extra,
    pain_points insights = pain_points (seeded df bank_name) ++ low_extra
    /\ drivers insights = drivers (seeded df bank_name) ++ high_extra
    /\ ranked (pain_points (seeded df bank_name))
    /\ ranked low_extra
    /\ ranked (drivers (seeded df bank_name))
    /\ ranked high_extra.
Proof.
  intros insights.
  destruct (insights_closed df bank_name) as [Hd Hp]. fold insights in Hd, Hp.
  do 2 eexists. split; [exact Hp|]. split; [exact Hd|].
  destruct (seeded_closed df bank_name) as [-> ->].
  destruct (sentiment_columns _), (rating_columns _); repeat split;
    try apply top_themes_ranked; constructor.
Qed.

End RankerSound.

(** ** The recommendations of a bank *)

Section MapperBounds.

Import Pandas Thematic Insights Spec.

Lemma insights_length (df : DataFrame) (bank_name : option string) :
  length (drivers (identify_drivers_and_pain_points df bank_name)) <= 5
  /\ length (pain_points (identify_drivers_and_pain_points df bank_name)) <= 5.
Proof.
  destruct (insights_closed df bank_name) as [-> ->].
  destruct (seeded_closed df bank_name) as [-> ->].
  rewrite !length_app.
  destruct (sentiment_columns _), (rating_columns _); simpl; split;
    repeat match goal with
           | |- context [length (seed_of ?s)] =>
               pose proof (seed_of_length s); generalize dependent (seed_of s); intros
           | |- context [length (extra_of ?s ?l)] =>
               pose proof (extra_of_length s l);
               generalize dependent (length (extra_of s l)); intros
           end; lia.
Qed.

Lemma flat_map_to_list_bound {A B : Type} (f : A -> option B) (l : list A) :
  length (flat_map (fun a => to_list (f a)) l) <= length l.
Proof.
  rewrite flat_map_to_list_length. apply filter_length_bound.
Qed.

Lemma pain_point_kind (t : string) (r : Recommendation) :
  pain_point_recommendation t = Some r ->
  In (category r, priority r) recommendation_kinds /\ priority r <> "Low".
Proof.
  unfold pain_point_recommendation, recommendation_kinds.
  repeat match goal with
         | |- context [if ?c then _ else _] => destruct c
         end;
    intros H; inversion H; subst; simpl; split; try tauto; discriminate.
Qed.

Lemma driver_kind (t : string) (r : Recommendation) :
  driver_recommendation t = Some r ->
  category r = "Enhancement" /\ priority r = "Low".
Proof.
  unfold driver_recommendation.
  destruct (Text.contains "Transaction Performance" t); intros H; inversion H.
  split; reflexivity.
Qed.

(** X12. A bank gets at most ten recommendations, and each is one of six
    kinds: Account Access, Performance and Support of priority High,
    UX/UI of priority Medium, Stability of priority Critical, and
    Enhancement of priority Low. *)
Theorem recommendations_bounded (df : DataFrame) (bank_name : string) :
  length (generate_recommendations df bank_name) <= 10
  /\ Forall (fun r => In (category r, priority r) recommendation_kinds)
            (generate_recommendations df bank_name).
Proof.
  unfold generate_recommendations. rewrite recommend_closed.
  destruct (insights_length df (Some bank_name)) as [Hd Hp].
  split.
  - rewrite length_app.
    pose proof (flat_map_to_list_bound
                  (fun p => pain_point_recommendation (i_theme p))
                  (pain_points (identify_drivers_and_pain_points df (Some bank_name)))).
    pose proof (flat_map_to_list_bound
                  (fun d => driver_recommendation (i_theme d))
                  (drivers (identify_drivers_and_pain_points df (Some bank_name)))).
    lia.
  - apply Forall_app. split; apply Forall_forall; intros r Hr;
      apply in_flat_map in Hr; destruct Hr as (x & _ & Hr).
    + destruct (pain_point_recommendation (i_theme x)) as [r'|] eqn:E;
        simpl in Hr; [|tauto].
      destruct Hr as [<-|[]]. now apply pain_point_kind in E.
    + destruct (driver_recommendation (i_theme x)) as [r'|] eqn:E;
        simpl in Hr; [|tauto].
      destruct Hr as [<-|[]]. apply driver_kind in E. destruct E as [-> ->].
      unfold recommendation_kinds. simpl. tauto.
Qed.

(** X13. Of the themes the classifier assigns, Feature Requests, Security
    & Privacy, Other and "" give no recommendation as pain points and the
    five others give one; as a driver only Transaction Performance gives
    one. *)
Theorem taxonomy_recommendations (keywords : string) :
  let t := assign_theme theme_patterns keywords in
  (pain_point_recommendation t = None
   <-> In t ["Feature Requests"; "Security & Privacy"; "Other"; ""])
  /\ (driver_recommendation t <> None <-> t = "Transaction Performance").
Proof.
  intros t. pose proof (assign_theme_range theme_patterns keywords) as H.
  fold t in H. clearbody t. simpl in H.
  repeat (destruct H as [<-|H];
          [split; split; vm_compute; intros; try tauto; try congruence;
           repeat match goal with
                  | H : _ \/ _ |- _ => destruct H
                  end; try discriminate; try tauto|]).
  destruct H.
Qed.

End MapperBounds.

(** ** The comparison of banks *)

Section Comparison.

Import Pandas Insights Spec.

Lemma compare_banks_closed (df : DataFrame) :
  compare_banks df
  = map (fun b =>
           let bank_df := select (fun r => String.eqb (bank r) b) df in
           (b,
            {| avg_rating :=
                 if has_column "rating" df
                 then mean (map rating (rows bank_df)) else 0%Q;
               total_reviews := len bank_df;
               positive_pct :=
                 if has_column "sentiment_label" df
                 then share (positive_reviews bank_df) bank_df else 0%Q;
               negative_pct :=
                 if has_column "sentiment_label" df
                 then share (negative_reviews bank_df) bank_df else 0%Q |}))
        (unique (map bank (rows df))).
Proof.
  unfold compare_banks.
  rewrite (fold_left_append _
             (fun b =>
                let bank_df := select (fun r => String.eqb (bank r) b) df in
                [(b,
                  {| avg_rating :=
                       if has_column "rating" df
                       then mean (map rating (rows bank_df)) else 0%Q;
                     total_reviews := len bank_df;
                     positive_pct :=
                       if has_column "sentiment_label" df
                       then share (positive_reviews bank_df) bank_df else 0%Q;
                     negative_pct :=
                       if has_column "sentiment_label" df
                       then share (negative_reviews bank_df) bank_df else 0%Q |})]))
    by reflexivity.
  simpl. induction (unique (map bank (rows df))) as [|b l IH]; simpl; congruence.
Qed.

(** X14. The comparison has one entry per distinct bank, in order of
    first appearance; every bank listed has at least one review, so no
    share divides by zero; and the review counts of all banks add up to
    the size of the frame. *)
Theorem compare_banks_partition (df : DataFrame) :
  map fst (compare_banks df) = unique (map bank (rows df))
  /\ NoDup (map fst (compare_banks df))
  /\ Forall (fun bc => total_reviews (snd bc) = length (group bank (fst bc) (rows df))
                       /\ 1 <= total_reviews (snd bc)) (compare_banks df)
  /\ list_sum (map (fun bc => total_reviews (snd bc)) (compare_banks df)) = len df.
Proof.
  rewrite compare_banks_closed.
  split; [rewrite map_map; apply map_id|].
  split; [rewrite map_map, map_id; apply unique_NoDup|].
  split.
  - apply Forall_map, Forall_forall. intros b Hb. cbn [fst snd total_reviews].
    split; [reflexivity|]. now apply (group_nonempty bank).
  - rewrite map_map. cbn [snd total_reviews]. apply (groups_cover bank).
Qed.

Lemma share_bounds (p : Review -> bool) (whole : DataFrame) :
  1 <= len whole ->
  (0 <= share (select p whole) whole /\ share (select p whole) whole <= 100)%Q.
Proof.
  intros Hone.
  assert (Hs : (0 < inject_Z (Z.of_nat (len whole)))%Q) by (unfold Qlt; simpl; lia).
  assert (Hle : len (select p whole) <= len whole)
    by (unfold len, select; simpl; apply filter_length_bound).
  unfold share. split.
  - apply Qmult_le_0_compat; [|discriminate].
    apply Qle_shift_div_l; [exact Hs|]. unfold Qle. simpl. lia.
  - setoid_replace (100 : Q) with (1 * 100)%Q at 2 by ring.
    apply Qmult_le_compat_r; [|discriminate].
    apply Qle_shift_div_r; [exact Hs|].
    rewrite Qmult_1_l, <- Zle_Qle. lia.
Qed.

(** X15. For every bank the positive and the negative share each lie
    between 0 and 100; without a sentiment column both are 0. *)
Theorem compare_banks_shares (df : DataFrame) :
  Forall (fun bc => (0 <= positive_pct (snd bc))%Q
                    /\ (positive_pct (snd bc) <= 100)%Q
                    /\ (0 <= negative_pct (snd bc))%Q
                    /\ (negative_pct (snd bc) <= 100)%Q)
         (compare_banks df)
  /\ (has_column "sentiment_label" df = false ->
      Forall (fun bc => positive_pct (snd bc) = 0%Q /\ negative_pct (snd bc) = 0%Q)
             (compare_banks df)).
Proof.
  rewrite compare_banks_closed. split.
  - apply Forall_map, Forall_forall. intros b Hb.
    cbn [snd positive_pct negative_pct].
    destruct (has_column "sentiment_label" df);
      [|repeat split; discriminate].
    pose proof (group_nonempty bank (rows df) b Hb) as Hone.
    set (bank_df := select (fun r => String.eqb (bank r) b) df) in *.
    assert (Hw : 1 <= len bank_df) by exact Hone.
    destruct (share_bounds (fun r => String.eqb (sentiment_label r) "POSITIVE")
                bank_df Hw) as [P0 P1].
    destruct (share_bounds (fun r => String.eqb (sentiment_label r) "NEGATIVE")
                bank_df Hw) as [N0 N1].
    repeat split; assumption.
  - intros Hs. apply Forall_map, Forall_forall. intros b _.
    cbn [snd positive_pct negative_pct]. rewrite Hs. split; reflexivity.
Qed.

Lemma sum_bounds (lo hi : Z) (l : list Z) :
  Forall (fun z => (lo <= z <= hi)%Z) l ->
  (lo * Z.of_nat (length l) <= fold_right Z.add 0 l <= hi * Z.of_nat (length l))%Z.
Proof.
  induction 1 as [|z l Hz _ IH]; [simpl; lia|].
  cbn [fold_right length]. rewrite Nat2Z.inj_succ. lia.
Qed.

Lemma mean_bounds (lo hi : Z) (l : list Z) :
  l <> [] ->
  Forall (fun z => (lo <= z <= hi)%Z) l ->
  (inject_Z lo <= mean l <= inject_Z hi)%Q.
Proof.
  intros Hne Hall. pose proof (sum_bounds lo hi l Hall) as [Hlo Hhi].
  assert (Hpos : (0 < inject_Z (Z.of_nat (length l)))%Q).
  { unfold Qlt. simpl. destruct l; [congruence | simpl; lia]. }
  unfold mean. split.
  - apply Qle_shift_div_l; [exact Hpos|].
    rewrite <- inject_Z_mult, <- Zle_Qle. exact Hlo.
  - apply Qle_shift_div_r; [exact Hpos|].
    rewrite <- inject_Z_mult, <- Zle_Qle. exact Hhi.
Qed.

(** X16. When every rating of the frame lies between two bounds, so does
    the average rating of every bank; without a rating column the
    average is 0. *)
Theorem compare_banks_average (df : DataFrame) (lo hi : Z) :
  Forall (fun r => (lo <= rating r <= hi)%Z) (rows df) ->
  Forall (fun bc =>
            if has_column "rating" df
            then (inject_Z lo <= avg_rating (snd bc) <= inject_Z hi)%Q
            else avg_rating (snd bc) = 0%Q)
         (compare_banks df).
Proof.
  intros Hall. rewrite compare_banks_closed.
  apply Forall_map, Forall_forall. intros b Hb. cbn [snd avg_rating].
  destruct (has_column "rating" df); [|reflexivity].
  apply mean_bounds.
  - pose proof (group_nonempty bank (rows df) b Hb) as Hone.
    unfold select, group in *. simpl.
    destruct (filter _ (rows df)); [simpl in Hone; lia | discriminate].
  - apply Forall_map. unfold select. simpl.
    apply Forall_forall. intros r Hr. apply filter_In in Hr.
    rewrite Forall_forall in Hall. now apply Hall.
Qed.

Lemma compare_banks_average_witness :
  Forall (fun r => (1 <= rating r <= 5)%Z) (rows Samples.divided)
  /\ Forall (fun bc => (inject_Z 1 <= avg_rating (snd bc) <= inject_Z 5)%Q)
            (compare_banks Samples.divided).
Proof.
  assert (Hall : Forall (fun r => (1 <= rating r <= 5)%Z) (rows Samples.divided))
    by (repeat constructor; simpl; lia).
  split; [exact Hall|].
  exact (compare_banks_average Samples.divided 1 5 Hall).
Defined.

End Comparison.

(** ** The spaCy extractor *)

Section SpacyExtractor.

Import Pandas Thematic Spec.

Lemma document_lemmas_closed (doc : list Token) :
  document_lemmas doc
  = map (fun token => Text.lower (lemma_ token)) (filter content_word doc).
Proof. unfold document_lemmas. now rewrite fold_left_keep. Qed.

(** X17. Without a loaded model the spaCy extractor returns nothing.
    With one it returns one keyword string per review: the empty string
    for a missing or blank text, and otherwise the comma-joined lower-case
    lemmas of the first ten tokens that are nouns, adjectives or verbs,
    no stop words, no punctuation and longer than two characters, in the
    order of the text. *)
Theorem spacy_keywords_shape (nlp : string -> list Token) (df : DataFrame) :
  extract_keywords_spacy None df = None
  /\ exists keywords_list,
       extract_keywords_spacy (Some nlp) df = Some keywords_list
       /\ length keywords_list = len df
       /\ forall i r,
            nth_error (rows df) i = Some r ->
            nth_error keywords_list i
            = Some match review r with
                   | None => ""
                   | Some text =>
                       if String.eqb (Text.strip text) "" then ""
                       else Text.join ", "
                              (firstn 10
                                 (map (fun token => Text.lower (lemma_ token))
                                      (filter content_word (nlp text))))
                   end.
Proof.
  split; [reflexivity|].
  unfold extract_keywords_spacy.
  rewrite (fold_left_append _
             (fun text =>
                [match text with
                 | None => ""
                 | Some text =>
                     if String.eqb (Text.strip text) "" then ""
                     else Text.join ", "
                            (firstn 10
                               (map (fun token => Text.lower (lemma_ token))
                                    (filter content_word (nlp text))))
                 end])).
  - eexists. split; [reflexivity|]. cbn [app].
    assert (E : forall {X : Type} (f : option string -> X) (l : list (option string)),
               flat_map (fun x => [f x]) l = map f l).
    { intros X f l. induction l; simpl; congruence. }
    rewrite E, map_map. split; [apply length_map|].
    intros i r Hi. now rewrite nth_error_map, Hi.
  - intros acc [text|]; [|reflexivity].
    rewrite document_lemmas_closed.
    destruct (Text.strip text) as [|c s]; reflexivity.
Qed.

Lemma spacy_keywords_shape_witness :
  nth_error (rows Samples.cbe_reviews) 2
  = Some (Samples.row "Great transfer speed" 5 "CBE" "POSITIVE" "")
  /\ exists keywords_list,
       extract_keywords_spacy (Some Samples.noun_tagger) Samples.cbe_reviews
       = Some keywords_list
       /\ nth_error keywords_list 2 = Some "great, transfer, speed".
Proof.
  split; [reflexivity|].
  destruct (spacy_keywords_shape Samples.noun_tagger Samples.cbe_reviews)
    as (_ & keywords_list & Hsome & _ & Hentry).
  exists keywords_list. split; [exact Hsome|].
  exact (Hentry 2 _ eq_refl).
Defined.

End SpacyExtractor.

(** ** The theme summary *)

Section Summary.

Import Pandas Thematic Spec.

Lemma flat_map_singleton {A B : Type} (f : A -> B) (l : list A) :
  flat_map (fun a => [f a]) l = map f l.
Proof. induction l as [|a l IH]; simpl; congruence. Qed.

Lemma theme_summary_closed (bank_themes : list (string * list string)) :
  theme_summary bank_themes
  = flat_map (fun bt => bank_rows (fst bt) (snd bt)) bank_themes.
Proof.
  unfold theme_summary.
  apply (fold_left_append _ (fun bt => bank_rows (fst bt) (snd bt))).
  intros acc bt. unfold bank_rows.
  rewrite (fold_left_append _
             (fun tc =>
                [{| s_bank := fst bt; s_theme := fst tc; s_count := snd tc;
                    s_percentage :=
                      ((inject_Z (Z.of_nat (snd tc))
                        / inject_Z (Z.of_nat (length (snd bt)))) * 100)%Q |}]))
    by reflexivity.
  now rewrite flat_map_singleton.
Qed.

Lemma list_sum_permutation (l l' : list nat) :
  Permutation l l' -> list_sum l = list_sum l'.
Proof.
  induction 1; simpl; try lia.
Qed.

Lemma group_occurrences (b : string) (l : list string) :
  length (group (fun x => x) b l) = occurrences b l.
Proof.
  unfold group, occurrences. induction l as [|a l IH]; simpl; [reflexivity|].
  destruct (String.eqb_spec a b) as [->|Hne].
  - destruct (string_dec b b); [simpl; now rewrite IH | congruence].
  - destruct (string_dec a b); [congruence | exact IH].
Qed.

(** The counts of a tally add up to the length of the list. *)
Lemma value_counts_total (l : list string) :
  list_sum (map snd (value_counts l)) = length l.
Proof.
  rewrite (list_sum_permutation _ _ (Permutation_map snd (value_counts_perm l))).
  rewrite map_map. cbn [snd].
  rewrite <- (groups_cover (fun x : string => x) l).
  rewrite map_id. apply f_equal, map_ext. intros b.
  symmetry. apply group_occurrences.
Qed.

Lemma list_sum_firstn (n : nat) (l : list nat) : list_sum (firstn n l) <= list_sum l.
Proof.
  revert n; induction l as [|a l IH]; intros [|n]; simpl; try lia.
  specialize (IH n). lia.
Qed.

Lemma value_counts_length (l : list string) :
  length (value_counts l) = length (unique l).
Proof.
  rewrite (Permutation_length (value_counts_perm l)). apply length_map.
Qed.

Lemma row_percentage_bounds (count size : nat) :
  1 <= count -> count <= size ->
  (0 < (inject_Z (Z.of_nat count) / inject_Z (Z.of_nat size)) * 100
   /\ (inject_Z (Z.of_nat count) / inject_Z (Z.of_nat size)) * 100 <= 100)%Q.
Proof.
  intros Hone Hle.
  assert (Hs : (0 < inject_Z (Z.of_nat size))%Q) by (unfold Qlt; simpl; lia).
  split.
  - apply Qmult_lt_0_compat; [|reflexivity].
    apply Qlt_shift_div_l; [exact Hs|]. unfold Qlt. simpl. lia.
  - setoid_replace (100 : Q) with (1 * 100)%Q at 2 by ring.
    apply Qmult_le_compat_r; [|discriminate].
    apply Qle_shift_div_r; [exact Hs|].
    rewrite Qmult_1_l, <- Zle_Qle. lia.
Qed.

(** X18. The theme summary lists for every bank its five most frequent
    themes, "" and Other among them when they are frequent, each with its
    count among the bank's themes and a percentage above 0 and at most
    100, most frequent first and no theme twice. The counts of a bank add
    up to at most the number of its themes, and for a bank of at most
    five distinct themes to exactly that number. *)
Theorem theme_summary_rows (bank_themes : list (string * list string)) :
  theme_summary bank_themes
  = flat_map (fun bt => bank_rows (fst bt) (snd bt)) bank_themes
  /\ forall bank_name themes_list,
       let summary := bank_rows bank_name themes_list in
       map (fun row => (s_theme row, s_count row)) summary
       = firstn 5 (value_counts themes_list)
       /\ length summary <= 5
       /\ NoDup (map s_theme summary)
       /\ StronglySorted (fun a b => s_count b <= s_count a) summary
       /\ Forall (fun row => s_bank row = bank_name
                             /\ In (s_theme row) themes_list
                             /\ s_count row = occurrences (s_theme row) themes_list
                             /\ 1 <= s_count row
                             /\ (0 < s_percentage row)%Q
                             /\ (s_percentage row <= 100)%Q) summary
       /\ list_sum (map s_count summary) <= length themes_list
       /\ (length (unique themes_list) <= 5 ->
           list_sum (map s_count summary) = length themes_list).
Proof.
  split; [apply theme_summary_closed|].
  intros bank_name themes_list summary. unfold summary, bank_rows, most_common.
  set (top := firstn 5 (value_counts themes_list)).
  assert (Hpairs : map (fun row => (s_theme row, s_count row))
                       (map (fun tc =>
                               {| s_bank := bank_name; s_theme := fst tc;
                                  s_count := snd tc;
                                  s_percentage :=
                                    ((inject_Z (Z.of_nat (snd tc))
                                      / inject_Z (Z.of_nat (length themes_list)))
                                     * 100)%Q |}) top) = top).
  { rewrite map_map. cbn [s_theme s_count].
    rewrite <- (map_id top) at 2. apply map_ext. now intros [k c]. }
  assert (Hcounts : forall l : list (string * nat),
             map s_count
                 (map (fun tc =>
                         {| s_bank := bank_name; s_theme := fst tc;
                            s_count := snd tc;
                            s_percentage :=
                              ((inject_Z (Z.of_nat (snd tc))
                                / inject_Z (Z.of_nat (length themes_list)))
                               * 100)%Q |}) l) = map snd l).
  { intros l. now rewrite map_map. }
  split; [exact Hpairs|].
  split; [rewrite length_map; apply firstn_le_length|].
  split.
  { rewrite map_map. cbn [s_theme]. apply (head_keys 5), value_counts_keys. }
  split.
  { apply sorted_map. cbn [s_count]. apply sorted_firstn, value_counts_descending. }
  split.
  { apply Forall_map, Forall_forall. intros [k c] Hin.
    cbn [s_bank s_theme s_count s_percentage fst snd].
    apply (head_incl 5) in Hin.
    pose proof (value_counts_positive _ _ _ Hin) as Hone.
    apply value_counts_In in Hin. destruct Hin as [Hk Hc].
    assert (Hle : c <= length themes_list)
      by (rewrite Hc; apply occurrences_length).
    destruct (row_percentage_bounds c (length themes_list) Hone Hle) as [Hp Hq].
    repeat split; assumption. }
  split.
  { rewrite Hcounts. unfold top. rewrite <- firstn_map.
    etransitivity; [apply list_sum_firstn|]. now rewrite value_counts_total. }
  intros Hfew.
  assert (Hall : top = value_counts themes_list).
  { unfold top. apply firstn_all2. now rewrite value_counts_length. }
  rewrite Hcounts, Hall. apply value_counts_total.
Qed.

Lemma theme_summary_rows_witness :
  length (unique ["Other"; "Customer Support"; "Other"; ""]) <= 5
  /\ map (fun row => (s_theme row, s_count row))
         (theme_summary [("CBE", ["Other"; "Customer Support"; "Other"; ""])])
     = [("Other", 2); ("Customer Support", 1); ("", 1)]
  /\ list_sum (map s_count (bank_rows "CBE" ["Other"; "Customer Support"; "Other"; ""]))
     = 4.
Proof.
  split; [simpl; lia|].
  destruct (theme_summary_rows [("CBE", ["Other"; "Customer Support"; "Other"; ""])])
    as (Hclosed & Hrows).
  destruct (Hrows "CBE" ["Other"; "Customer Support"; "Other"; ""])
    as (Hpairs & _ & _ & _ & _ & _ & Hfew).
  split.
  - rewrite Hclosed.
    change (flat_map (fun bt => bank_rows (fst bt) (snd bt))
              [("CBE", ["Other"; "Customer Support"; "Other"; ""])])
      with (bank_rows "CBE" ["Other"; "Customer Support"; "Other"; ""] ++ []).
    rewrite app_nil_r, Hpairs. reflexivity.
  - exact (Hfew ltac:(simpl; lia)).
Defined.

End Summary.

(** ** Frames without a reportable theme *)

Section Unplaced.

Import Pandas Insights Spec.

Lemma bank_frame_rows (df : DataFrame) (bank_name : option string) (r : Review) :
  In r (rows (bank_frame df bank_name)) -> In r (rows df).
Proof.
  unfold bank_frame. destruct bank_name as [b|]; [|tauto].
  destruct (Text.truthy b); [|tauto].
  unfold select. simpl. intros H. now apply filter_In in H.
Qed.

Lemma insights_themes (df : DataFrame) (bank_name : option string) :
  Forall (fun p => In (i_theme p) (themes_of (bank_frame df bank_name)))
         (drivers (identify_drivers_and_pain_points df bank_name)
          ++ pain_points (identify_drivers_and_pain_points df bank_name)).
Proof.
  destruct (segment_parts df bank_name)
    as (low_extra & high_extra & Hp & Hd & _ & _ & Fn & Fl & Fp & Fh).
  cbv zeta in Hp, Hd, Fn, Fl, Fp, Fh.
  rewrite Hp, Hd, !Forall_app. repeat split;
    (eapply Forall_impl; [|eassumption]); intros x Hx;
    now apply from_segment_within in Hx.
Qed.

(** X19. When every review of the frame has the theme "" or Other, as
    after a failed vectorization, there is no driver, no pain point and
    no recommendation. *)
Theorem unplaced_reviews_empty (df : DataFrame) :
  Forall (fun r => theme r = "" \/ theme r = "Other") (rows df) ->
  (forall bank_name, identify_drivers_and_pain_points df bank_name = no_insights)
  /\ (forall bank_name, generate_recommendations df bank_name = []).
Proof.
  intros Hall.
  assert (E : forall bank_name,
             identify_drivers_and_pain_points df bank_name = no_insights).
  { intros bank_name.
    pose proof (insights_reportable df bank_name) as Hrep.
    pose proof (insights_themes df bank_name) as Hin.
    set (insights := identify_drivers_and_pain_points df bank_name) in *.
    assert (Hnil : drivers insights ++ pain_points insights = []).
    { destruct (drivers insights ++ pain_points insights) as [|p l]; [reflexivity|].
      exfalso. apply Forall_inv in Hrep. apply Forall_inv in Hin.
      apply reportable_iff in Hrep. destruct Hrep as [H1 H2].
      unfold themes_of in Hin. apply in_map_iff in Hin.
      destruct Hin as (r & Hr & Hrow). apply bank_frame_rows in Hrow.
      rewrite Forall_forall in Hall. destruct (Hall r Hrow); congruence. }
    apply app_eq_nil in Hnil. destruct Hnil. now apply insight_set_empty. }
  split; [exact E|].
  intros bank_name. unfold generate_recommendations. now rewrite E.
Qed.

Lemma unplaced_reviews_empty_witness :
  Forall (fun r => theme r = "" \/ theme r = "Other") (rows Samples.unplaced)
  /\ identify_drivers_and_pain_points Samples.unplaced (Some "CBE") = no_insights.
Proof.
  assert (Hall : Forall (fun r => theme r = "" \/ theme r = "Other")
                        (rows Samples.unplaced))
    by (repeat constructor; simpl; tauto).
  split; [exact Hall|].
  exact (proj1 (unplaced_reviews_empty Samples.unplaced Hall) (Some "CBE")).
Defined.

End Unplaced.
